(** * litex-buildenv: the Mars AX3 platform and the simulated network SoC

    A shallow embedding of [platforms/mars_ax3.py] and [targets/sim/net.py].

    Python [str] values are modelled as Rocq strings of ASCII characters,
    Python [int] values as [Z], lists as lists, dictionaries with string
    keys as [gmap string _].  Calls into the LiteX framework (its classes
    are not part of these two files) are recorded, in program order, in a
    trace of [call]s that plays the role of the SoC object under
    construction. *)

From Stdlib Require Import ZArith Ascii String List Lia DecimalString DecimalNat.
From stdpp Require Import gmap strings list.

Local Open Scope Z_scope.

(** ** Exceptions and results *)

Inductive exception :=
| ValueError (msg : string)
| KeyError (key : string)
| IndexError
| NameError (name : string)
| TypeError (msg : string).

Inductive result (A : Type) :=
| Ok (a : A)
| Raise (e : exception).
Arguments Ok {A} a.
Arguments Raise {A} e.

#[global] Instance result_ret : MRet result := λ A a, Ok a.
#[global] Instance result_bind : MBind result := λ A B f m,
  match m with
  | Ok a => f a
  | Raise e => Raise e
  end.

Definition is_ValueError {A} (r : result A) : Prop :=
  ∃ msg, r = Raise (ValueError msg).

(** What a module-level name can be bound to: a dictionary, or an object
    that is no mapping (a function, a class). *)
Inductive pyvalue :=
| PyDict (d : gmap string Z)
| PyObject (qualname : string).

(** ** Python string primitives *)

Module Py.

(** [Py_ISSPACE], the blanks [int()] strips around an ASCII literal. *)
Definition Py_ISSPACE (c : ascii) : bool :=
  let n := nat_of_ascii c in
  (((9 <=? n) && (n <=? 13)) || (n =? 32))%nat.

(** [str.isspace] on one ASCII character, the blanks [str.split()] cuts at:
    the above and the four separators FS, GS, RS, US. *)
Definition isspace (c : ascii) : bool :=
  let n := nat_of_ascii c in
  (((9 <=? n) && (n <=? 13)) || ((28 <=? n) && (n <=? 32)))%nat.

Definition digit (c : ascii) : option Z :=
  let n := nat_of_ascii c in
  if ((48 <=? n) && (n <=? 57))%nat then Some (Z.of_nat (n - 48)) else None.

Definition islower (c : ascii) : bool :=
  let n := nat_of_ascii c in ((97 <=? n) && (n <=? 122))%nat.

Definition isupper_char (c : ascii) : bool :=
  let n := nat_of_ascii c in ((65 <=? n) && (n <=? 90))%nat.

(** [s.split(sep)] for a one-character separator: cuts at every occurrence,
    keeps empty pieces, and never returns the empty list. *)
Fixpoint split (sep : ascii) (s : string) : list string :=
  match s with
  | EmptyString => [EmptyString]
  | String c s' =>
      if Ascii.eqb c sep then EmptyString :: split sep s'
      else match split sep s' with
           | piece :: pieces => String c piece :: pieces
           | [] => [String c EmptyString]
           end
  end.

(** Cutting at every character satisfying [p], empty pieces kept. *)
Fixpoint split_at (p : ascii → bool) (s : string) : list string :=
  match s with
  | EmptyString => [EmptyString]
  | String c s' =>
      if p c then EmptyString :: split_at p s'
      else match split_at p s' with
           | piece :: pieces => String c piece :: pieces
           | [] => [String c EmptyString]
           end
  end.

Definition nonempty (s : string) : bool :=
  match s with EmptyString => false | String _ _ => true end.

(** [s.split()] without separator: the maximal blank-free pieces. *)
Definition split_ws (s : string) : list string :=
  List.filter nonempty (split_at isspace s).

Fixpoint lstrip (s : string) : string :=
  match s with
  | String c s' => if Py_ISSPACE c then lstrip s' else s
  | EmptyString => EmptyString
  end.

Fixpoint all_space (s : string) : bool :=
  match s with
  | String c s' => Py_ISSPACE c && all_space s'
  | EmptyString => true
  end.

(** The digits of a base-10 literal after the first one; a single underscore
    is allowed between two digits.  Returns the value read and what follows
    the literal. *)
Fixpoint int_digits (acc : Z) (s : string) : option (Z * string) :=
  match s with
  | EmptyString => Some (acc, EmptyString)
  | String c s' =>
      match digit c with
      | Some d => int_digits (10 * acc + d) s'
      | None =>
          if Ascii.eqb c "_" then
            match s' with
            | String c' s'' =>
                match digit c' with
                | Some d => int_digits (10 * acc + d) s''
                | None => None
                end
            | EmptyString => None
            end
          else Some (acc, s)
      end
  end.

Definition int_unsigned (s : string) : option Z :=
  match s with
  | String c s' =>
      match digit c with
      | Some d =>
          match int_digits d s' with
          | Some (v, rest) => if all_space rest then Some v else None
          | None => None
          end
      | None => None
      end
  | EmptyString => None
  end.

(** The interpreter's default limit on the number of digits of a decimal
    literal, [sys.int_max_str_digits]. *)
Definition int_max_str_digits : Z := 4300.

(** The digits of a literal: blanks, the sign and underscores do not count,
    leading zeros do. *)
Fixpoint count_digits (s : string) : Z :=
  match s with
  | EmptyString => 0
  | String c s' => match digit c with Some _ => 1 | None => 0 end + count_digits s'
  end.

(** [int(x)] for a string [x], base 10: surrounding blanks, an optional
    sign, digits, and no more digits than the interpreter's limit.  A
    rejected literal raises [ValueError]; the exception carries the literal
    (the text CPython wraps around it is not modelled). *)
Definition int (x : string) : result Z :=
  let body := lstrip x in
  let parsed :=
    match body with
    | String "+" s => int_unsigned s
    | String "-" s => Z.opp <$> int_unsigned s
    | _ => int_unsigned body
    end in
  match parsed with
  | Some v =>
      if int_max_str_digits <? count_digits x then Raise (ValueError x) else Ok v
  | None => Raise (ValueError x)
  end.

(** [str(n)] for a natural number. *)
Definition str (n : nat) : string := NilZero.string_of_uint (Nat.to_uint n).

Definition upper_char (c : ascii) : ascii :=
  if islower c then ascii_of_nat (nat_of_ascii c - 32) else c.

(** [s.upper()] on ASCII text. *)
Fixpoint upper (s : string) : string :=
  match s with
  | EmptyString => EmptyString
  | String c s' => String (upper_char c) (upper s')
  end.

Fixpoint has_lower (s : string) : bool :=
  match s with
  | EmptyString => false
  | String c s' => islower c || has_lower s'
  end.

Fixpoint has_upper (s : string) : bool :=
  match s with
  | EmptyString => false
  | String c s' => isupper_char c || has_upper s'
  end.

(** [s.isupper()]: no lowercase letter and at least one uppercase letter. *)
Definition isupper (s : string) : bool := negb (has_lower s) && has_upper s.

(** [template.format(arg)] for a template with one [{}] field. *)
Fixpoint format (template arg : string) : string :=
  match template with
  | EmptyString => EmptyString
  | String c t =>
      match t with
      | String c' t' =>
          if Ascii.eqb c "{" && Ascii.eqb c' "}" then arg +:+ t'
          else String c (format t arg)
      | EmptyString => String c EmptyString
      end
  end.

(** [l[:-1]] *)
Definition but_last {A} (l : list A) : list A := take (length l - 1) l.

(** [list(enumerate(l))] *)
Definition enumerate {A} (l : list A) : list (nat * A) := imap pair l.

(** [[f(x) for x in l]] where [f] may raise: left to right, the first
    exception ends the comprehension. *)
Fixpoint comprehension {A B} (f : A → result B) (l : list A) : result (list B) :=
  match l with
  | [] => Ok []
  | x :: l' => y ← f x; ys ← comprehension f l'; Ok (y :: ys)
  end.

(** [l[0]] *)
Definition first {A} (l : list A) : result A :=
  match l with
  | x :: _ => Ok x
  | [] => Raise IndexError
  end.

(** [d[key]] *)
Definition getitem {V} (d : gmap string V) (key : string) : result V :=
  match d !! key with
  | Some v => Ok v
  | None => Raise (KeyError key)
  end.

(** Reading the name [n] in a module whose bound names are [globals]; the
    names read this way here are no builtins. *)
Definition name (globals : gmap string pyvalue) (n : string) : result pyvalue :=
  match globals !! n with
  | Some v => Ok v
  | None => Raise (NameError n)
  end.

(** [**v] in a dictionary display: [v] has to be a mapping. *)
Definition unpack (v : pyvalue) : result (gmap string Z) :=
  match v with
  | PyDict d => Ok d
  | PyObject qualname => Raise (TypeError qualname)
  end.

End Py.

(** ** The SoC under construction: a trace of framework calls *)

(** Peripheral objects built by the constructor. *)
Inductive module :=
| LiteEthPHYModel (pads : string)
| LiteEthMAC (phy : module) (dw : Z) (interface : string) (endianness : string).

Section Trace.

(** Positional constructor arguments are passed on untouched. *)
Context {PyObj : Type}.

Inductive call :=
| BaseSoCInit (args : list PyObj) (kwargs : gmap string Z)
| PlatformRequest (name : string)
| SetSubmodule (name : string) (m : module)
| AddCsr (name : string) (csr_id : Z)
| AddWbSlave (address : Z) (bus_of : module)
| AddMemoryRegion (name : string) (origin : Z) (length : Z) (type : string)
| AddInterupt (name : string)
| AddConstant (name : string) (value : Z).

(** A method of the SoC: it extends the trace and returns or raises.  What
    was recorded before an exception stays recorded. *)
Definition M (A : Type) : Type := list call → result A * list call.

#[global] Instance M_ret : MRet M := λ A a tr, (Ok a, tr).

#[global] Instance M_bind : MBind M := λ A B f m tr,
  match m tr with
  | (Ok a, tr') => f a tr'
  | (Raise e, tr') => (Raise e, tr')
  end.

Definition lift {A} (r : result A) : M A := λ tr, (r, tr).

Definition emit (c : call) : M unit := λ tr, (Ok tt, tr ++ [c]).

End Trace.
Arguments call : clear implicits.
Arguments M : clear implicits.

(** [for x in l: body(x)] *)
Fixpoint for_each {PyObj A} (body : A → M PyObj unit) (l : list A) : M PyObj unit :=
  match l with
  | [] => mret tt
  | x :: l' => body x ;; for_each body l'
  end.

(** ** targets/sim/net.py *)

Module NetSoC.
Section NetSoC.

Context {PyObj : Type}.

(** The names net.py has bound when its class statement runs: the ones its
    import lines 1 to 7 bring in, and no other. *)
Definition module_globals : gmap string pyvalue :=
  list_to_map [
    ("mem_decoder", PyObject "litex.soc.integration.soc_core.mem_decoder");
    ("LiteEthPHYModel", PyObject "liteeth.phy.model.LiteEthPHYModel");
    ("LiteEthMAC", PyObject "liteeth.core.mac.LiteEthMAC");
    ("dict_set_max", PyObject "targets.utils.dict_set_max");
    ("BaseSoC", PyObject "targets.sim.base.BaseSoC")
  ].

(** The names bound when the class statement runs. *)
Variable globals : gmap string pyvalue.
(** [self.cpu.endianness], set by the base class. *)
Variable cpu_endianness : string.

Abbreviation M := (M PyObj).

(** The class body, lines 11 to 13: [{**SoCSDRAM, **{"ethmac": 0xb0000000}}].
    The name is read first, then unpacked; the right operand wins. *)
Definition mem_map : result (gmap string Z) :=
  base ← Py.name globals "SoCSDRAM";
  base ← Py.unpack base;
  Ok ({[ "ethmac" := 0xb0000000 ]} ∪ base).

(** The class object: the attribute its methods read through [self]. *)
Record class_object := { cls_mem_map : gmap string Z }.

(** The class statement binds [NetSoC] only if its body returns. *)
Definition class_statement : result class_object :=
  m ← mem_map; Ok {| cls_mem_map := m |}.

(** Modelled from the spec: [targets.utils.dict_set_max] is not part of the
    two files.  It merges the threshold with any caller-supplied value by
    taking the maximum, and stores the threshold when the caller gave none. *)
Definition dict_set_max (d : gmap string Z) (key : string) (value : Z) : gmap string Z :=
  match d !! key with
  | Some v => <[ key := Z.max v value ]> d
  | None => <[ key := value ]> d
  end.

(** Modelled from the spec: [targets.sim.base.BaseSoC] is not part of the two
    files.  Its construction receives the keyword arguments and allocates
    the integrated ROM with the size found there. *)
Definition BaseSoC__init__ (args : list PyObj) (kwargs : gmap string Z) : M unit :=
  emit (BaseSoCInit args kwargs).

(** Framework methods, recorded as they are called. *)
Definition platform_request (name : string) : M string :=
  emit (PlatformRequest name) ;; mret name.
Definition set_submodule (name : string) (m : module) : M unit :=
  emit (SetSubmodule name m).
Definition add_csr (name : string) (csr_id : Z) : M unit :=
  emit (AddCsr name csr_id).
Definition add_wb_slave (address : Z) (bus_of : module) : M unit :=
  emit (AddWbSlave address bus_of).
Definition add_memory_region (name : string) (origin length : Z) (type : string) : M unit :=
  emit (AddMemoryRegion name origin length type).
Definition add_interupt (name : string) : M unit :=
  emit (AddInterupt name).
Definition add_constant (name : string) (value : Z) : M unit :=
  emit (AddConstant name value).

Definition __init__ (cls : class_object) (args : list PyObj)
    (kwargs : gmap string Z) : M unit :=
  (* Need a larger integrated ROM to fit the BIOS with TFTP support. *)
  let kwargs := dict_set_max kwargs "integrated_rom_size" 0x10000 in
  BaseSoC__init__ args kwargs ;;
  pads ← platform_request "eth";
  let ethphy := LiteEthPHYModel pads in
  set_submodule "ethphy" ethphy ;;
  add_csr "ethphy" 18 ;;
  let ethmac := LiteEthMAC ethphy 32 "wishbone" cpu_endianness in
  set_submodule "ethmac" ethmac ;;
  address ← lift (Py.getitem (cls_mem_map cls) "ethmac");
  add_wb_slave address ethmac ;;
  add_csr "ethmac" 19 ;;
  origin ← lift (Py.getitem (cls_mem_map cls) "ethmac");
  add_memory_region "ethmac" origin 0x2000 "io" ;;
  add_interupt "ethmac".

(** Executing net.py and calling the class [NetSoC]: there is a
    class to instantiate only if the class statement has returned. *)
Definition construct (args : list PyObj) (kwargs : gmap string Z) : M unit :=
  cls ← lift class_statement;
  __init__ cls args kwargs.

Definition _configure_ip (ip_type : string) (ip : list Z) : M unit :=
  for_each (λ '(i, e),
    let s := ip_type +:+ Py.str (i + 1) in
    let s := Py.upper s in
    add_constant s e) (Py.enumerate ip).

(** [while len(iprange) < 4: iprange.append(0)], unrolled [fuel] times. *)
Fixpoint pad_loop (fuel : nat) (iprange : list Z) : list Z :=
  match fuel with
  | O => iprange
  | S fuel' =>
      if (length iprange <? 4)%nat then pad_loop fuel' (iprange ++ [0])
      else iprange
  end.

(** Four rounds are enough: every round adds one element. *)
Definition pad (iprange : list Z) : list Z := pad_loop 4 iprange.

Definition configure_iprange (iprange : string) : M unit :=
  iprange ← lift (Py.comprehension Py.int (Py.split "." iprange));
  let iprange := pad iprange in
  (* Our IP address *)
  _configure_ip "LOCALIP" (Py.but_last iprange ++ [50]) ;;
  (* IP address of tftp host *)
  _configure_ip "REMOTEIP" (Py.but_last iprange ++ [100]).

(** *** Observations on a trace *)

Definition constants (tr : list (call PyObj)) : list (string * Z) :=
  omap (λ c, match c with AddConstant n v => Some (n, v) | _ => None end) tr.

Definition csr_registrations (tr : list (call PyObj)) : list (string * Z) :=
  omap (λ c, match c with AddCsr n i => Some (n, i) | _ => None end) tr.

Definition memory_regions (tr : list (call PyObj)) : list (string * Z * Z * string) :=
  omap (λ c, match c with
             | AddMemoryRegion n o l t => Some (n, o, l, t)
             | _ => None
             end) tr.

Definition wb_slaves (tr : list (call PyObj)) : list (Z * module) :=
  omap (λ c, match c with AddWbSlave a b => Some (a, b) | _ => None end) tr.

Definition interrupts (tr : list (call PyObj)) : list string :=
  omap (λ c, match c with AddInterupt n => Some n | _ => None end) tr.

(** The keyword arguments of each base-class initialisation. *)
Definition base_inits (tr : list (call PyObj)) : list (gmap string Z) :=
  omap (λ c, match c with BaseSoCInit _ kw => Some kw | _ => None end) tr.

(** Modelled from the spec: the integrated ROM of the constructed SoC has
    the size the base class found in its keyword arguments. *)
Definition integrated_rom_size (tr : list (call PyObj)) : option Z :=
  match base_inits tr with
  | kw :: _ => kw !! "integrated_rom_size"
  | [] => None
  end.

End NetSoC.
End NetSoC.

(** ** platforms/mars_ax3.py *)

(** The constraint objects of [litex.build.generic_platform].  [Pins] takes
    any number of strings and cuts each at blanks. *)
#[warnings="-register-all"]
Inductive constraint :=
| Pins (identifiers : list string)
| IOStandard (name : string)
| Misc (misc : string)
| Subsignal (name : string) (constraints : list constraint).

Fixpoint pins_of (c : constraint) : list string :=
  match c with
  | Pins identifiers => concat (List.map Py.split_ws identifiers)
  | Subsignal _ constraints => concat (List.map pins_of constraints)
  | IOStandard _ | Misc _ => []
  end.

(** One row of the IO table: signal name, index, constraints. *)
Definition binding : Type := string * Z * list constraint.

Definition binding_name (b : binding) : string := b.1.1.
Definition binding_pins (b : binding) : list string := concat (List.map pins_of b.2).

Definition _io : list binding := [
  ("user_led", 0, [Pins ["M16"]; IOStandard "LVCMOS33"]);
  ("user_led", 1, [Pins ["M17"]; IOStandard "LVCMOS33"]);
  ("user_led", 2, [Pins ["L18"]; IOStandard "LVCMOS33"]);
  ("user_led", 3, [Pins ["M18"]; IOStandard "LVCMOS33"]);

  ("clk50", 0, [Pins ["P17"]; IOStandard "LVCMOS33"]);

  ("cpu_reset", 0, [Pins ["C2"]; IOStandard "LVCMOS33"]);

  ("serial", 0, [
    Subsignal "tx" [Pins ["U13"]];
    Subsignal "rx" [Pins ["U11"]];
    IOStandard "LVCMOS33"]);

  ("spiflash_4x", 0, [
    Subsignal "cs_n" [Pins ["L13"]];
    Subsignal "dq" [Pins ["K17"; "K18"; "L14"; "M14"]];
    IOStandard "LVCMOS33"]);
  ("spiflash_1x", 0, [
    Subsignal "cs_n" [Pins ["L13"]];
    Subsignal "mosi" [Pins ["K17"]];
    Subsignal "miso" [Pins ["K18"]];
    Subsignal "wp" [Pins ["L14"]];
    Subsignal "hold" [Pins ["M14"]];
    IOStandard "LVCMOS33"]);
  ("ddram", 0, [
    Subsignal "a" [Pins [
        "J17 J14 J18 D18 J13 E17 K13 E18";
        "H17 F18 G16 G18 H16 G17 H15"];
      IOStandard "SSTL135"];
    Subsignal "ba" [Pins ["D17 H14 K15"]; IOStandard "SSTL135"];
    Subsignal "ras_n" [Pins ["F15"]; IOStandard "SSTL135"];
    Subsignal "cas_n" [Pins ["F16"]; IOStandard "SSTL135"];
    Subsignal "we_n" [Pins ["J15"]; IOStandard "SSTL135"];
    Subsignal "dm" [Pins ["D15 D12"]; IOStandard "SSTL135"];
    Subsignal "dq" [Pins [
        "A18 E16 A15 E15 B18 B17 A16 B16";
        "B14 C14 B13 D14 F13 A11 F14 B11"];
      IOStandard "SSTL135";
      Misc "IN_TERM=UNTUNED_SPLIT_40"];
    Subsignal "dqs_p" [Pins ["A13 C12"];
      IOStandard "DIFF_SSTL135";
      Misc "IN_TERM=UNTUNED_SPLIT_40"];
    Subsignal "dqs_n" [Pins ["A14 B12"];
      IOStandard "DIFF_SSTL135";
      Misc "IN_TERM=UNTUNED_SPLIT_40"];
    Subsignal "clk_p" [Pins ["C16"]; IOStandard "DIFF_SSTL135"];
    Subsignal "clk_n" [Pins ["C17"]; IOStandard "DIFF_SSTL135"];
    Subsignal "cke" [Pins ["G14"]; IOStandard "SSTL135"];
    Subsignal "odt" [Pins ["K16"]; IOStandard "SSTL135"];
    Subsignal "reset_n" [Pins ["G13"]; IOStandard "SSTL135"];
    Misc "SLEW=FAST";
    Subsignal "ddr3_vsel" [Pins ["D9"]; IOStandard "SSTL135"]])
].

(** Whether two bindings use a common pin location. *)
Definition shares_pin (b1 b2 : binding) : bool :=
  existsb (λ p, existsb (String.eqb p) (binding_pins b2)) (binding_pins b1).

(** The two bindings of the one SPI flash: its quad and its single-bit view. *)
Definition flash_views : list string := ["spiflash_4x"; "spiflash_1x"].

Definition binding_index (b : binding) : Z := b.1.2.

(** The names of the sub-signals of a row, in order. *)
Definition subsignal_names (b : binding) : list string :=
  omap (λ c, match c with Subsignal n _ => Some n | _ => None end) b.2.

(** The pins of the sub-signal [name] of a row. *)
Definition subsignal_pins (name : string) (b : binding) : list string :=
  concat (List.map (λ c, match c with
                         | Subsignal n cs =>
                             if String.eqb n name then concat (List.map pins_of cs) else []
                         | _ => []
                         end) b.2).

(** The rows of the table with a given name. *)
Definition rows_named (name : string) (io : list binding) : list binding :=
  List.filter (λ b, String.eqb (binding_name b) name) io.

Definition has_iostandard (cs : list constraint) : bool :=
  existsb (λ c, match c with IOStandard _ => true | _ => false end) cs.

(** Every pin of a row has an IO standard: one given with its sub-signal,
    or the one of the row, which the framework hands down to all pins. *)
Definition pins_have_iostandard (b : binding) : bool :=
  let row := has_iostandard b.2 in
  forallb (λ c, match c with
                | Pins _ => row
                | Subsignal _ cs => row || has_iostandard cs
                | _ => true
                end) b.2.

(** No string occurs twice. *)
Fixpoint distinct (l : list string) : bool :=
  match l with
  | [] => true
  | x :: l' => negb (existsb (String.eqb x) l') && distinct l'
  end.

(** The programmer back ends of [litex.build]. *)
Inductive programmer_backend :=
| OpenOCD (config flash_proxy_basename : string)
| XC3SProg (cable : string)
| VivadoProgrammer (flash_part : string).

Module Platform.

(** The attributes [Platform.__init__] sets; [device] is stored by the
    [XilinxPlatform] constructor it calls. *)
Record t := {
  device : string;
  io : list binding;
  toolchain : string;
  bitstream_commands : list string;
  additional_commands : list string;
  programmer : string;
  platform_commands : list string
}.

Definition name : string := "mars_ax3".
Definition default_clk_name : string := "clk50".
Definition gateware_size : Z := 0x220000.

(** The size of the bitstream in bits, as the comment above
    [gateware_size] gives it. *)
Definition bitstream_bits : Z := 17536096.

Definition spiflash_model : string := "s25fl512s".
Definition spiflash_read_dummy_bits : Z := 6.
Definition spiflash_clock_div : Z := 4.
(** [int((512/8)*1024*1024)]: the quotient is exact, so the float
    arithmetic of the source yields this integer. *)
Definition spiflash_total_size : Z := (512 / 8) * 1024 * 1024.
Definition spiflash_page_size : Z := 512.
Definition spiflash_sector_size : Z := 256 * 1024.

(** The double-quote character, as a string. *)
Definition dquote : string := String (ascii_of_nat 34) EmptyString.

(** The constructor; its defaults are toolchain [vivado] and programmer
    [openocd]. *)
Definition __init__ (toolchain programmer : string) : t := {|
  device := "xc7a35t-csg324-1";
  io := _io;
  toolchain := toolchain;
  bitstream_commands :=
    ["set_property BITSTREAM.CONFIG.SPI_BUSWIDTH 4 [current_design]"];
  additional_commands :=
    ["write_cfgmem -force -format bin -interface spix4 -size 16 " +:+
     "-loadbit " +:+ dquote +:+ "up 0x0 {build_name}.bit" +:+ dquote +:+
     " -file {build_name}.bin"];
  programmer := programmer;
  platform_commands :=
    ["set_property INTERNAL_VREF 0.675 [get_iobanks 15]"]
|}.

Definition create_programmer (self : t) : result programmer_backend :=
  if String.eqb (programmer self) "openocd" then
    family ← Py.first (Py.split "-" (device self));
    let proxy := Py.format "bscan_spi_{}.bit" family in
    Ok (OpenOCD "~/nmigen_test/digilent-hs2.cfg" proxy)
  else if String.eqb (programmer self) "xc3sprog" then
    Ok (XC3SProg "nexys4")
  else if String.eqb (programmer self) "vivado" then
    Ok (VivadoProgrammer "n25q128-3.3v-spi-x1_x2_x4")
  else
    Raise (ValueError (Py.format "{} programmer is not supported" (programmer self))).

(** The selector values [create_programmer] has a branch for. *)
Definition supported : list string := ["openocd"; "xc3sprog"; "vivado"].

End Platform.

(** ** Specification-side definitions *)

(** The [add_constant] calls one run of [_configure_ip] makes: one per
    element, named by its one-based position. *)
Definition constant_calls {PyObj} (ip_type : string) (ip : list Z) : list (call PyObj) :=
  imap (λ i e, AddConstant (Py.upper (ip_type +:+ Py.str (i + 1))) e) ip.

(** The device family as the spec words it: the substring before the
    first dash (the whole string when there is none). *)
Fixpoint family_prefix (device : string) : string :=
  match device with
  | EmptyString => EmptyString
  | String c s => if Ascii.eqb c "-" then EmptyString else String c (family_prefix s)
  end.

(** The name of the constant of position [i] (counted from zero). *)
Definition constant_name (ip_type : string) (i : nat) : string :=
  Py.upper (ip_type +:+ Py.str (i + 1)).

(** [".".join(parts)] for a non-empty list of parts. *)
Fixpoint dotted (first : string) (more : list string) : string :=
  match more with
  | [] => first
  | x :: more' => first +:+ String "." (dotted x more')
  end.

(** [c in s] *)
Fixpoint has_char (c : ascii) (s : string) : bool :=
  match s with
  | EmptyString => false
  | String c' s' => Ascii.eqb c' c || has_char c s'
  end.

(** * Properties *)

(** ** Sample runs *)

Example int_samples :
  Py.int "10" = Ok 10 ∧ Py.int " -7 " = Ok (-7) ∧ Py.int "1_0" = Ok 10 ∧
  Py.int "007" = Ok 7 ∧ Py.int "" = Raise (ValueError "") ∧
  Py.int "1__0" = Raise (ValueError "1__0") ∧ Py.int "_1" = Raise (ValueError "_1") ∧
  Py.int "- 1" = Raise (ValueError "- 1") ∧ Py.int "0x1" = Raise (ValueError "0x1").
Proof. repeat split; reflexivity. Qed.

Example split_samples :
  Py.split "." "" = [""] ∧ Py.split "." "a..b" = ["a"; ""; "b"] ∧
  Py.split "-" "abc-" = ["abc"; ""] ∧
  Py.split_ws "D17 H14  K15 " = ["D17"; "H14"; "K15"] ∧
  Py.format "bscan_spi_{}.bit" "x" = "bscan_spi_x.bit" ∧
  Py.str 10 = "10" ∧ Py.upper "localip1" = "LOCALIP1".
Proof. repeat split; reflexivity. Qed.

Example configure_iprange_sample :
  NetSoC.configure_iprange (PyObj := unit) "10.0.1" [] =
  (Ok tt, [AddConstant "LOCALIP1" 10; AddConstant "LOCALIP2" 0;
           AddConstant "LOCALIP3" 1; AddConstant "LOCALIP4" 50;
           AddConstant "REMOTEIP1" 10; AddConstant "REMOTEIP2" 0;
           AddConstant "REMOTEIP3" 1; AddConstant "REMOTEIP4" 100]).
Proof. reflexivity. Qed.

Example create_programmer_samples :
  Platform.create_programmer (Platform.__init__ "vivado" "openocd") =
    Ok (OpenOCD "~/nmigen_test/digilent-hs2.cfg" "bscan_spi_xc7a35t.bit") ∧
  Platform.create_programmer (Platform.__init__ "vivado" "impact") =
    Raise (ValueError "impact programmer is not supported") ∧
  length _io = 10%nat ∧
  List.map binding_pins (take 3 (drop 6 _io)) =
    [["U13"; "U11"]; ["L13"; "K17"; "K18"; "L14"; "M14"];
     ["L13"; "K17"; "K18"; "L14"; "M14"]].
Proof. repeat split; reflexivity. Qed.

(** ** Strings *)

Lemma split_nonempty sep s : Py.split sep s ≠ [].
Proof. destruct s as [|c s]; simpl; [done|]. by repeat case_match. Qed.

Lemma first_split sep s : Py.first (Py.split sep s) = Ok (default EmptyString (head (Py.split sep s))).
Proof. pose proof (split_nonempty sep s). by destruct (Py.split sep s). Qed.

Lemma head_split_dash device :
  head (Py.split "-" device) = Some (family_prefix device).
Proof.
  induction device as [|c s IH]; simpl; [done|].
  destruct (Ascii.eqb c "-"); [done|].
  destruct (Py.split "-" s); simpl in *; congruence.
Qed.

Lemma has_lower_upper s : Py.has_lower (Py.upper s) = false.
Proof.
  induction s as [|c s IH]; simpl; [done|].
  rewrite IH, orb_false_r. clear.
  destruct c as [[] [] [] [] [] [] [] []]; reflexivity.
Qed.

Lemma has_upper_app_l s t : Py.has_upper s = true → Py.has_upper (s +:+ t) = true.
Proof.
  induction s as [|c s IH]; simpl; [done|].
  destruct (Py.isupper_char c); simpl; auto.
Qed.

Lemma upper_app s t : Py.upper (s +:+ t) = Py.upper s +:+ Py.upper t.
Proof. induction s as [|c s IH]; simpl; [done|]. by rewrite IH. Qed.

Lemma has_upper_upper s : Py.has_upper s = true → Py.has_upper (Py.upper s) = true.
Proof.
  induction s as [|c s IH]; simpl; [done|].
  intros [Hc|Hs]%orb_true_iff.
  - apply orb_true_iff. left. revert Hc. clear.
    destruct c as [[] [] [] [] [] [] [] []]; done.
  - apply orb_true_iff. auto.
Qed.

(** A decimal numeral has no letters, so upper-casing leaves it alone. *)
Lemma upper_uint d : Py.upper (NilEmpty.string_of_uint d) = NilEmpty.string_of_uint d.
Proof. induction d; simpl; by rewrite ?IHd. Qed.

Lemma upper_str n : Py.upper (Py.str n) = Py.str n.
Proof.
  unfold Py.str, NilZero.string_of_uint.
  destruct (Nat.to_uint n); [done | apply upper_uint ..].
Qed.

(** ** The list comprehension *)

Lemma comprehension_Ok {A B} (f : A → result B) l ys :
  Py.comprehension f l = Ok ys ↔ Forall2 (λ x y, f x = Ok y) l ys.
Proof.
  revert ys. induction l as [|x l IH]; intros ys; simpl.
  - split; [intros [= <-]; constructor | by inversion 1].
  - unfold mbind, result_bind. split.
    + destruct (f x) as [y|] eqn:Hx; [|done].
      destruct (Py.comprehension f l) as [ys'|] eqn:Hl; [|done].
      intros [= <-]. constructor; [done|]. by apply IH.
    + inversion 1 as [|? y ? ys' Hx Hl]; subst. rewrite Hx.
      apply IH in Hl. by rewrite Hl.
Qed.

Lemma int_raises x e : Py.int x = Raise e → e = ValueError x.
Proof. unfold Py.int. repeat case_match; congruence. Qed.

(** An element that does not convert makes the comprehension raise, and
    [int] raises nothing but [ValueError]. *)
Lemma comprehension_int_raises l x :
  x ∈ l → (∀ v, Py.int x ≠ Ok v) →
  ∃ msg, Py.comprehension Py.int l = Raise (ValueError msg).
Proof.
  intros Hin Hx. induction Hin as [x l|x y l Hin IH]; simpl; unfold mbind, result_bind.
  - destruct (Py.int x) as [v|e] eqn:E; [by destruct (Hx v)|].
    apply int_raises in E as ->. eauto.
  - destruct (Py.int y) as [v|e] eqn:E.
    + destruct (IH Hx) as [msg ->]. eauto.
    + apply int_raises in E as ->. eauto.
Qed.

(** ** Running the SoC methods *)

Section Runs.
Context {PyObj : Type}.
Implicit Types tr : list (call PyObj).

Lemma for_each_imap {A B} (body : B → M PyObj unit) (f : nat → A → B)
    (h : nat → A → call PyObj) (l : list A) tr :
  (∀ i x tr', body (f i x) tr' = (Ok tt, tr' ++ [h i x])) →
  for_each body (imap f l) tr = (Ok tt, tr ++ imap h l).
Proof.
  revert f h tr. induction l as [|x l IH]; intros f h tr Hbody; simpl.
  - by rewrite app_nil_r.
  - unfold mbind, M_bind. rewrite Hbody.
    rewrite (IH (f ∘ S) (h ∘ S)); [by rewrite <- app_assoc|].
    intros i y tr'. apply Hbody.
Qed.

Lemma _configure_ip_run ip_type ip tr :
  NetSoC._configure_ip ip_type ip tr = (Ok tt, tr ++ constant_calls ip_type ip).
Proof.
  unfold NetSoC._configure_ip, Py.enumerate, constant_calls.
  by apply for_each_imap.
Qed.

Lemma pad_loop_spec fuel (l : list Z) :
  NetSoC.pad_loop fuel l = l ++ replicate (fuel `min` (4 - length l)) 0.
Proof.
  revert l. induction fuel as [|fuel IH]; intros l; cbn [NetSoC.pad_loop].
  - by rewrite app_nil_r.
  - destruct (Nat.ltb_spec (length l) 4) as [Hlt|Hge].
    + rewrite IH, <- app_assoc. f_equal. rewrite length_app. simpl length.
      replace (S fuel `min` (4 - length l))%nat
        with (S (fuel `min` (4 - (length l + 1))))%nat by lia.
      by rewrite replicate_S.
    + replace (S fuel `min` (4 - length l))%nat with 0%nat by lia.
      by rewrite app_nil_r.
Qed.

(** The loop has ended within the four rounds: the list is as long as the
    loop condition asks. *)
Lemma pad_spec (l : list Z) :
  NetSoC.pad l = l ++ replicate (4 - length l) 0 ∧ (4 ≤ length (NetSoC.pad l))%nat.
Proof.
  unfold NetSoC.pad. rewrite pad_loop_spec.
  replace (4 `min` (4 - length l))%nat with (4 - length l)%nat by lia.
  split; [done|]. rewrite length_app, length_replicate. lia.
Qed.

Lemma pad_long (l : list Z) : (4 ≤ length l)%nat → NetSoC.pad l = l.
Proof.
  intros H. rewrite (proj1 (pad_spec l)).
  replace (4 - length l)%nat with 0%nat by lia. apply app_nil_r.
Qed.

Lemma length_pad (l : list Z) : length (NetSoC.pad l) = (4 `max` length l)%nat.
Proof.
  rewrite (proj1 (pad_spec l)), length_app, length_replicate. lia.
Qed.

(** What a run of [configure_iprange] does when every component converts. *)
Lemma configure_iprange_run s comps tr :
  Forall2 (λ x v, Py.int x = Ok v) (Py.split "." s) comps →
  NetSoC.configure_iprange s tr =
    (Ok tt, tr ++ constant_calls "LOCALIP" (Py.but_last (NetSoC.pad comps) ++ [50])
               ++ constant_calls "REMOTEIP" (Py.but_last (NetSoC.pad comps) ++ [100])).
Proof.
  intros H%comprehension_Ok. unfold NetSoC.configure_iprange.
  unfold mbind at 1, M_bind at 1, lift. rewrite H.
  unfold mbind, M_bind. by rewrite !_configure_ip_run, <- app_assoc.
Qed.

Lemma configure_iprange_raise s x tr :
  x ∈ Py.split "." s → (∀ v, Py.int x ≠ Ok v) →
  ∃ msg, NetSoC.configure_iprange s tr = (Raise (ValueError msg), tr).
Proof.
  intros Hin Hx. destruct (comprehension_int_raises _ _ Hin Hx) as [msg E].
  exists msg. unfold NetSoC.configure_iprange, mbind, M_bind, lift. by rewrite E.
Qed.

(** A run that returns has converted every component. *)
Lemma configure_iprange_accepts s tr tr' :
  NetSoC.configure_iprange s tr = (Ok tt, tr') →
  ∃ comps, Forall2 (λ x v, Py.int x = Ok v) (Py.split "." s) comps.
Proof.
  unfold NetSoC.configure_iprange, mbind, M_bind, lift.
  destruct (Py.comprehension Py.int (Py.split "." s)) as [comps|] eqn:E; [|done].
  intros _. exists comps. by apply comprehension_Ok.
Qed.

End Runs.

(** ** The constants of an address *)

Section Constants.
Context {PyObj : Type}.
Implicit Types tr : list (call PyObj).

Lemma upper_name ip_type n :
  Py.upper ip_type = ip_type →
  Py.upper (ip_type +:+ Py.str n) = ip_type +:+ Py.str n.
Proof. intros H. by rewrite upper_app, upper_str, H. Qed.

Lemma constant_calls_lookup ip_type (ip : list Z) i v :
  Py.upper ip_type = ip_type → ip !! i = Some v →
  constant_calls (PyObj := PyObj) ip_type ip !! i
    = Some (AddConstant (ip_type +:+ Py.str (i + 1)) v).
Proof.
  intros Hup Hi. unfold constant_calls.
  by rewrite list_lookup_imap, Hi, upper_name.
Qed.

Lemma constant_calls_isupper ip_type (ip : list Z) (c : call PyObj) :
  Py.has_upper ip_type = true → c ∈ constant_calls ip_type ip →
  ∃ name value, c = AddConstant name value ∧ Py.isupper name = true.
Proof.
  intros Hup (i & e & -> & _)%elem_of_lookup_imap. do 2 eexists. split; [done|].
  unfold Py.isupper. rewrite has_lower_upper. simpl.
  by apply has_upper_upper, has_upper_app_l.
Qed.

Lemma length_constant_calls ip_type (ip : list Z) :
  length (constant_calls (PyObj := PyObj) ip_type ip) = length ip.
Proof. apply length_imap. Qed.

Lemma length_but_last {A} (l : list A) : length (Py.but_last l) = (length l - 1)%nat.
Proof. unfold Py.but_last. rewrite length_take. lia. Qed.

(** The components before the last one survive padding and [[:-1]]. *)
Lemma but_last_pad_lookup (comps : list Z) i :
  (i + 1 < length comps)%nat →
  Py.but_last (NetSoC.pad comps) !! i = comps !! i.
Proof.
  intros Hi. destruct (pad_spec comps) as [Hpad _].
  unfold Py.but_last. rewrite Hpad, length_app, length_replicate.
  rewrite lookup_take_lt by lia. apply lookup_app_l. lia.
Qed.

End Constants.

(** ** configure_iprange *)

(** C1: for the range "10.0.1" the three components are padded with one
    zero and the derived addresses are 10.0.1.50 (local) and 10.0.1.100
    (remote); for "10.0.1.5" nothing is padded, the last octet 5 is dropped,
    and the derived addresses are the same. *)
Theorem configure_iprange_derived_addresses (PyObj : Type) (tr : list (call PyObj)) :
  let derived :=
    [AddConstant "LOCALIP1" 10; AddConstant "LOCALIP2" 0;
     AddConstant "LOCALIP3" 1; AddConstant "LOCALIP4" 50;
     AddConstant "REMOTEIP1" 10; AddConstant "REMOTEIP2" 0;
     AddConstant "REMOTEIP3" 1; AddConstant "REMOTEIP4" 100] in
  Py.comprehension Py.int (Py.split "." "10.0.1") = Ok [10; 0; 1] ∧
  NetSoC.pad [10; 0; 1] = [10; 0; 1; 0] ∧
  NetSoC.configure_iprange "10.0.1" tr = (Ok tt, tr ++ derived) ∧
  Py.comprehension Py.int (Py.split "." "10.0.1.5") = Ok [10; 0; 1; 5] ∧
  NetSoC.pad [10; 0; 1; 5] = [10; 0; 1; 5] ∧
  NetSoC.configure_iprange "10.0.1.5" tr = (Ok tt, tr ++ derived).
Proof.
  intros derived. repeat split; try reflexivity.
  - by rewrite (configure_iprange_run "10.0.1" [10; 0; 1]) by by apply comprehension_Ok.
  - by rewrite (configure_iprange_run "10.0.1.5" [10; 0; 1; 5]) by by apply comprehension_Ok.
Qed.

(** C7, as the spec states it, fails: a range of five components is
    accepted and yields ten constants, LOCALIP1..5 and REMOTEIP1..5. *)
Lemma configure_iprange_ten_constants :
  ¬ (∀ (s : string) (tr' : list (call unit)),
       NetSoC.configure_iprange s [] = (Ok tt, tr') →
       List.map fst (NetSoC.constants tr') =
         ["LOCALIP1"; "LOCALIP2"; "LOCALIP3"; "LOCALIP4";
          "REMOTEIP1"; "REMOTEIP2"; "REMOTEIP3"; "REMOTEIP4"]).
Proof.
  intros H. specialize (H "1.2.3.4.5" _ eq_refl). vm_compute in H. discriminate H.
Qed.

(** C7, amended: every constant name an accepted call emits is uppercase;
    when the range has at most four components, exactly the 8 constants
    LOCALIP1..4 and REMOTEIP1..4 are emitted, in this order. *)
Theorem configure_iprange_constant_names (PyObj : Type) (s : string)
    (tr tr' : list (call PyObj)) :
  NetSoC.configure_iprange s tr = (Ok tt, tr') →
  ∃ emitted, tr' = tr ++ emitted ∧
    (∀ c, c ∈ emitted →
       ∃ name value, c = AddConstant name value ∧ Py.isupper name = true) ∧
    ((length (Py.split "." s) ≤ 4)%nat →
       ∃ a b c,
         emitted =
           [AddConstant "LOCALIP1" a; AddConstant "LOCALIP2" b;
            AddConstant "LOCALIP3" c; AddConstant "LOCALIP4" 50;
            AddConstant "REMOTEIP1" a; AddConstant "REMOTEIP2" b;
            AddConstant "REMOTEIP3" c; AddConstant "REMOTEIP4" 100]).
Proof.
  intros Hrun. destruct (configure_iprange_accepts _ _ _ Hrun) as [comps Hcomps].
  rewrite (configure_iprange_run s comps tr Hcomps) in Hrun.
  injection Hrun as <-. eexists. split; [done|]. split.
  - intros c [Hc|Hc]%elem_of_app; revert Hc; by apply constant_calls_isupper.
  - intros Hlen. rewrite (Forall2_length _ _ _ Hcomps) in Hlen.
    destruct (pad_spec comps) as [Hpad _].
    destruct comps as [|a [|b [|c [|d [|? ?]]]]]; simpl in Hlen; [..|lia];
      rewrite Hpad; clear; do 3 eexists; reflexivity.
Qed.

Lemma configure_iprange_constant_names_witness :
  let emitted : list (call unit) :=
    [AddConstant "LOCALIP1" 192; AddConstant "LOCALIP2" 168;
     AddConstant "LOCALIP3" 0; AddConstant "LOCALIP4" 50;
     AddConstant "REMOTEIP1" 192; AddConstant "REMOTEIP2" 168;
     AddConstant "REMOTEIP3" 0; AddConstant "REMOTEIP4" 100] in
  NetSoC.configure_iprange "192.168" [] = (Ok tt, emitted) ∧
  ∃ emitted', emitted = [] ++ emitted' ∧
    (∀ c, c ∈ emitted' →
       ∃ name value, c = AddConstant name value ∧ Py.isupper name = true) ∧
    ((length (Py.split "." "192.168") ≤ 4)%nat →
       ∃ a b c,
         emitted' =
           [AddConstant "LOCALIP1" a; AddConstant "LOCALIP2" b;
            AddConstant "LOCALIP3" c; AddConstant "LOCALIP4" 50;
            AddConstant "REMOTEIP1" a; AddConstant "REMOTEIP2" b;
            AddConstant "REMOTEIP3" c; AddConstant "REMOTEIP4" 100]).
Proof.
  intros emitted. split; [reflexivity|].
  apply (configure_iprange_constant_names unit "192.168" [] emitted).
  reflexivity.
Defined.

(** C8: the range is not validated.  When some dot-separated component does
    not convert to an integer, the call raises [ValueError] to its caller
    and the trace is left as it was: no constant has been emitted. *)
Theorem configure_iprange_malformed (PyObj : Type) (s x : string)
    (tr : list (call PyObj)) :
  x ∈ Py.split "." s →
  (∀ v, Py.int x ≠ Ok v) →
  ∃ msg,
    NetSoC.configure_iprange s tr = (Raise (ValueError msg), tr) ∧
    NetSoC.constants (NetSoC.configure_iprange s tr).2 = NetSoC.constants tr.
Proof.
  intros Hin Hx. destruct (configure_iprange_raise s x tr Hin Hx) as [msg E].
  exists msg. by rewrite E.
Qed.

Lemma configure_iprange_malformed_witness :
  "x" ∈ Py.split "." "10.0.x" ∧
  (∀ v, Py.int "x" ≠ Ok v) ∧
  ∃ msg,
    NetSoC.configure_iprange (PyObj := unit) "10.0.x" [] = (Raise (ValueError msg), []) ∧
    NetSoC.constants (NetSoC.configure_iprange (PyObj := unit) "10.0.x" []).2
      = NetSoC.constants (PyObj := unit) [].
Proof.
  assert (Hin : "x" ∈ Py.split "." "10.0.x") by (simpl; set_solver).
  assert (Hx : ∀ v, Py.int "x" ≠ Ok v) by (intros v; discriminate).
  split; [exact Hin|]. split; [exact Hx|].
  exact (configure_iprange_malformed unit "10.0.x" "x" [] Hin Hx).
Defined.

(** C10: octet values are not range-checked.  Whenever every component
    converts, whatever its sign or size, the call returns; each component
    but the last is the value of the constant of its position in both
    addresses; and with more than four components nothing is padded or cut:
    each address has one constant per component, more than 8 in all. *)
Theorem configure_iprange_no_range_check (PyObj : Type) (s : string)
    (comps : list Z) (tr : list (call PyObj)) :
  Forall2 (λ x v, Py.int x = Ok v) (Py.split "." s) comps →
  ∃ local remote,
    NetSoC.configure_iprange s tr =
      (Ok tt, tr ++ constant_calls "LOCALIP" local ++ constant_calls "REMOTEIP" remote) ∧
    (∀ i v, (i + 1 < length comps)%nat → comps !! i = Some v →
       constant_calls (PyObj := PyObj) "LOCALIP" local !! i
         = Some (AddConstant ("LOCALIP" +:+ Py.str (i + 1)) v) ∧
       constant_calls (PyObj := PyObj) "REMOTEIP" remote !! i
         = Some (AddConstant ("REMOTEIP" +:+ Py.str (i + 1)) v)) ∧
    ((4 < length comps)%nat →
       local = Py.but_last comps ++ [50] ∧
       remote = Py.but_last comps ++ [100] ∧
       length (constant_calls (PyObj := PyObj) "LOCALIP" local) = length comps ∧
       length (constant_calls (PyObj := PyObj) "REMOTEIP" remote) = length comps ∧
       (8 < length (constant_calls (PyObj := PyObj) "LOCALIP" local
                      ++ constant_calls "REMOTEIP" remote))%nat).
Proof.
  intros Hcomps. do 2 eexists. split; [by apply configure_iprange_run|]. split.
  - intros i v Hi Hv.
    split; apply constant_calls_lookup; try reflexivity;
      (rewrite lookup_app_l by (rewrite length_but_last, length_pad; lia));
      by rewrite but_last_pad_lookup.
  - intros Hlen. rewrite pad_long by lia.
    rewrite length_app, !length_constant_calls, !length_app, length_but_last.
    simpl. repeat split; lia.
Qed.

Lemma configure_iprange_no_range_check_witness :
  let comps : list Z := [-1; 300; 7; 8; 9] in
  Forall2 (λ x v, Py.int x = Ok v) (Py.split "." "-1.300.7.8.9") comps ∧
  ∃ local remote,
    NetSoC.configure_iprange (PyObj := unit) "-1.300.7.8.9" [] =
      (Ok tt, [] ++ constant_calls "LOCALIP" local ++ constant_calls "REMOTEIP" remote) ∧
    (∀ i v, (i + 1 < length comps)%nat → comps !! i = Some v →
       constant_calls (PyObj := unit) "LOCALIP" local !! i
         = Some (AddConstant ("LOCALIP" +:+ Py.str (i + 1)) v) ∧
       constant_calls (PyObj := unit) "REMOTEIP" remote !! i
         = Some (AddConstant ("REMOTEIP" +:+ Py.str (i + 1)) v)) ∧
    ((4 < length comps)%nat →
       local = Py.but_last comps ++ [50] ∧
       remote = Py.but_last comps ++ [100] ∧
       length (constant_calls (PyObj := unit) "LOCALIP" local) = length comps ∧
       length (constant_calls (PyObj := unit) "REMOTEIP" remote) = length comps ∧
       (8 < length (constant_calls (PyObj := unit) "LOCALIP" local
                      ++ constant_calls "REMOTEIP" remote))%nat).
Proof.
  intros comps.
  assert (H : Forall2 (λ x v, Py.int x = Ok v) (Py.split "." "-1.300.7.8.9") comps)
    by (simpl; repeat constructor).
  split; [exact H|].
  exact (configure_iprange_no_range_check unit "-1.300.7.8.9" comps [] H).
Defined.

Example configure_iprange_out_of_range :
  NetSoC.constants (NetSoC.configure_iprange (PyObj := unit) "-1.300.7.8.9" []).2 =
    [("LOCALIP1", -1); ("LOCALIP2", 300); ("LOCALIP3", 7); ("LOCALIP4", 8);
     ("LOCALIP5", 50);
     ("REMOTEIP1", -1); ("REMOTEIP2", 300); ("REMOTEIP3", 7); ("REMOTEIP4", 8);
     ("REMOTEIP5", 100)].
Proof. reflexivity. Qed.

(** ** NetSoC construction *)

Section Construction.
Context {PyObj : Type}.
Variable cpu_endianness : string.
Implicit Types (tr : list (call PyObj)) (kwargs : gmap string Z)
  (globals : gmap string pyvalue).

(** None of the import lines of net.py binds the name the class body reads. *)
Lemma module_globals_SoCSDRAM : NetSoC.module_globals !! "SoCSDRAM" = None.
Proof. by vm_compute. Qed.

Lemma mem_map_unbound globals :
  globals !! "SoCSDRAM" = None →
  NetSoC.mem_map globals = Raise (NameError "SoCSDRAM").
Proof. intros H. unfold NetSoC.mem_map, Py.name. by rewrite H. Qed.

Lemma mem_map_no_mapping globals qualname :
  globals !! "SoCSDRAM" = Some (PyObject qualname) →
  NetSoC.mem_map globals = Raise (TypeError qualname).
Proof. intros H. unfold NetSoC.mem_map, Py.name. by rewrite H. Qed.

Lemma mem_map_bound globals base :
  globals !! "SoCSDRAM" = Some (PyDict base) →
  NetSoC.mem_map globals = Ok ({[ "ethmac" := 0xb0000000 ]} ∪ base).
Proof. intros H. unfold NetSoC.mem_map, Py.name. by rewrite H. Qed.

Lemma dict_set_max_lookup kwargs key value :
  NetSoC.dict_set_max kwargs key value !! key =
    Some (match kwargs !! key with Some v => Z.max v value | None => value end).
Proof.
  unfold NetSoC.dict_set_max. destruct (kwargs !! key); apply lookup_insert_eq.
Qed.

(** Where the module does not bind the name, the class statement raises,
    and so does every attempt to construct: nothing is recorded. *)
Lemma construct_unbound globals args kwargs tr :
  globals !! "SoCSDRAM" = None →
  NetSoC.class_statement globals = Raise (NameError "SoCSDRAM") ∧
  NetSoC.construct globals cpu_endianness args kwargs tr
    = (Raise (NameError "SoCSDRAM"), tr).
Proof.
  intros H. unfold NetSoC.construct, NetSoC.class_statement.
  by rewrite (mem_map_unbound globals H).
Qed.

(** The calls of the constructor, in program order, for a class whose
    memory map has an [ethmac] entry. *)
Lemma __init___run (cls : NetSoC.class_object) address args kwargs tr :
  NetSoC.cls_mem_map cls !! "ethmac" = Some address →
  let ethphy := LiteEthPHYModel "eth" in
  let ethmac := LiteEthMAC ethphy 32 "wishbone" cpu_endianness in
  NetSoC.__init__ cpu_endianness cls args kwargs tr =
    (Ok tt,
     tr ++ [BaseSoCInit args (NetSoC.dict_set_max kwargs "integrated_rom_size" 0x10000);
            PlatformRequest "eth";
            SetSubmodule "ethphy" ethphy;
            AddCsr "ethphy" 18;
            SetSubmodule "ethmac" ethmac;
            AddWbSlave address ethmac;
            AddCsr "ethmac" 19;
            AddMemoryRegion "ethmac" address 0x2000 "io";
            AddInterupt "ethmac"]).
Proof.
  intros Haddr ethphy ethmac. unfold NetSoC.__init__, Py.getitem.
  rewrite Haddr.
  unfold mbind, M_bind, lift, NetSoC.BaseSoC__init__, NetSoC.platform_request,
    NetSoC.set_submodule, NetSoC.add_csr, NetSoC.add_wb_slave,
    NetSoC.add_memory_region, NetSoC.add_interupt, emit, mbind, M_bind, mret, M_ret.
  by rewrite <- !app_assoc.
Qed.

(** What the constructor is written to do: in a module that does bind the
    name to a dictionary, the class exists, its [ethmac] entry is
    0xb0000000 whatever the base map holds, and construction adjusts the
    ROM size, initialises the base class and registers the PHY at CSR 18,
    the MAC at CSR 19, the bus window, the region and the interrupt. *)
Lemma construct_bound globals base args kwargs tr :
  globals !! "SoCSDRAM" = Some (PyDict base) →
  let ethphy := LiteEthPHYModel "eth" in
  let ethmac := LiteEthMAC ethphy 32 "wishbone" cpu_endianness in
  NetSoC.construct globals cpu_endianness args kwargs tr =
    (Ok tt,
     tr ++ [BaseSoCInit args (NetSoC.dict_set_max kwargs "integrated_rom_size" 0x10000);
            PlatformRequest "eth";
            SetSubmodule "ethphy" ethphy;
            AddCsr "ethphy" 18;
            SetSubmodule "ethmac" ethmac;
            AddWbSlave 0xb0000000 ethmac;
            AddCsr "ethmac" 19;
            AddMemoryRegion "ethmac" 0xb0000000 0x2000 "io";
            AddInterupt "ethmac"]).
Proof.
  intros H ethphy ethmac. unfold NetSoC.construct, NetSoC.class_statement.
  rewrite (mem_map_bound globals base H).
  unfold mbind at 1, M_bind at 1, lift. simpl.
  apply __init___run. simpl.
  apply lookup_union_Some_l, lookup_singleton_eq.
Qed.

End Construction.

(** C2: the claim states what the constructor is written to do, and the
    code does not get there.  Under the imports of net.py the class
    statement raises [NameError] for [SoCSDRAM]; an attempt to construct
    raises it before the ROM size is adjusted and before the base class is
    initialised, so no integrated ROM of any size exists. *)
Theorem construction_raises_before_rom_adjustment (PyObj : Type)
    (cpu_endianness : string) (args : list PyObj) (kwargs : gmap string Z) :
  let run := NetSoC.construct NetSoC.module_globals cpu_endianness args kwargs [] in
  run = (Raise (NameError "SoCSDRAM"), []) ∧
  NetSoC.base_inits run.2 = [] ∧
  NetSoC.integrated_rom_size run.2 = None.
Proof.
  intros run. subst run.
  by rewrite (proj2 (construct_unbound cpu_endianness NetSoC.module_globals args kwargs []
                       module_globals_SoCSDRAM)).
Qed.

(** C5: the claim states what the constructor is written to do, and the
    code does not get there.  Under the imports of net.py an attempt to
    construct raises [NameError] for [SoCSDRAM] and registers nothing in
    the CSR space, neither the PHY at 18 nor the MAC at 19. *)
Theorem construction_registers_no_csr (PyObj : Type) (cpu_endianness : string)
    (args : list PyObj) (kwargs : gmap string Z) (tr : list (call PyObj)) :
  let run := NetSoC.construct NetSoC.module_globals cpu_endianness args kwargs tr in
  run.1 = Raise (NameError "SoCSDRAM") ∧
  NetSoC.csr_registrations run.2 = NetSoC.csr_registrations tr.
Proof.
  intros run. subst run.
  by rewrite (proj2 (construct_unbound cpu_endianness NetSoC.module_globals args kwargs tr
                       module_globals_SoCSDRAM)).
Qed.

(** C6: the claim states what the code is written to do, and the code does
    not get there.  Under the imports of net.py the merged memory map of
    lines 11 to 13 does not evaluate: reading [SoCSDRAM] raises [NameError],
    the class is never bound, and an attempt to construct registers no
    memory region, no bus slave window and no interrupt. *)
Theorem mem_map_raises_NameError (PyObj : Type) (cpu_endianness : string)
    (args : list PyObj) (kwargs : gmap string Z) (tr : list (call PyObj)) :
  let run := NetSoC.construct NetSoC.module_globals cpu_endianness args kwargs tr in
  NetSoC.mem_map NetSoC.module_globals = Raise (NameError "SoCSDRAM") ∧
  NetSoC.class_statement NetSoC.module_globals = Raise (NameError "SoCSDRAM") ∧
  run.1 = Raise (NameError "SoCSDRAM") ∧
  NetSoC.memory_regions run.2 = NetSoC.memory_regions tr ∧
  NetSoC.wb_slaves run.2 = NetSoC.wb_slaves tr ∧
  NetSoC.interrupts run.2 = NetSoC.interrupts tr.
Proof.
  intros run. subst run.
  destruct (construct_unbound cpu_endianness NetSoC.module_globals args kwargs tr
              module_globals_SoCSDRAM) as [Hcls ->].
  split; [apply mem_map_unbound, module_globals_SoCSDRAM|]. by split.
Qed.

(** ** The IO table *)

Lemma shares_pin_false b1 b2 p :
  shares_pin b1 b2 = false → p ∈ binding_pins b1 → p ∈ binding_pins b2 → False.
Proof.
  unfold shares_pin. intros H H1 H2. apply not_true_iff_false in H. apply H.
  apply existsb_exists. exists p. split; [by apply list_elem_of_In|].
  apply existsb_exists. exists p. split; [by apply list_elem_of_In|].
  apply String.eqb_refl.
Qed.

(** C9, as the spec states it, fails: the bindings [spiflash_4x] (row 7)
    and [spiflash_1x] (row 8) both use pin L13. *)
Lemma io_flash_bindings_share_pin :
  ¬ (∀ (i j : nat) (b1 b2 : binding) (p : string),
       i ≠ j → _io !! i = Some b1 → _io !! j = Some b2 →
       p ∈ binding_pins b1 → p ∉ binding_pins b2).
Proof.
  intros H.
  refine (H 7%nat 8%nat _ _ "L13" _ eq_refl eq_refl _ _); [lia|..];
    vm_compute; repeat constructor.
Qed.

Lemma io_pins_disjoint_other_pairs (i j : nat) (b1 b2 : binding) (p : string) :
  i ≠ j → _io !! i = Some b1 → _io !! j = Some b2 →
  ¬ (binding_name b1 ∈ flash_views ∧ binding_name b2 ∈ flash_views) →
  p ∈ binding_pins b1 → p ∉ binding_pins b2.
Proof.
  intros Hne Hi Hj Hflash H1 H2.
  destruct i as [|[|[|[|[|[|[|[|[|[|i]]]]]]]]]]; try discriminate Hi;
    injection Hi as <-;
    (destruct j as [|[|[|[|[|[|[|[|[|[|j]]]]]]]]]]; try discriminate Hj;
     injection Hj as <-);
    first
      [ by destruct Hne
      | by eapply shares_pin_false; [| exact H1 | exact H2]; vm_compute
      | apply Hflash; split; vm_compute; repeat constructor ].
Qed.

Ltac not_a_flash_view H :=
  exfalso; unfold flash_views, binding_name in H; simpl in H;
  apply elem_of_cons in H as [H|H]; [discriminate H|];
  apply elem_of_cons in H as [H|H]; [discriminate H|];
  by apply elem_of_nil in H.

(** Two distinct rows that are both views of the flash carry the same five
    pins, in the same order. *)
Lemma io_flash_views_same_pins (i j : nat) (b1 b2 : binding) :
  i ≠ j → _io !! i = Some b1 → _io !! j = Some b2 →
  binding_name b1 ∈ flash_views → binding_name b2 ∈ flash_views →
  binding_pins b1 = ["L13"; "K17"; "K18"; "L14"; "M14"] ∧
  binding_pins b2 = ["L13"; "K17"; "K18"; "L14"; "M14"].
Proof.
  intros Hne Hi Hj Hf1 Hf2.
  destruct i as [|[|[|[|[|[|[|[|[|[|i]]]]]]]]]]; try discriminate Hi;
    injection Hi as <-;
    (destruct j as [|[|[|[|[|[|[|[|[|[|j]]]]]]]]]]; try discriminate Hj;
     injection Hj as <-);
    first
      [ by destruct Hne
      | split; reflexivity
      | not_a_flash_view Hf1
      | not_a_flash_view Hf2 ].
Qed.

(** C9, amended: two distinct rows of the IO table use disjoint pin
    locations, unless they are the two views of the SPI flash,
    [spiflash_4x] and [spiflash_1x]; these two rows are in the table and
    name the same five pins, L13, K17, K18, L14 and M14. *)
Theorem io_pins_disjoint_except_flash (i j : nat) (b1 b2 : binding) (p : string) :
  i ≠ j → _io !! i = Some b1 → _io !! j = Some b2 →
  (¬ (binding_name b1 ∈ flash_views ∧ binding_name b2 ∈ flash_views) →
     p ∈ binding_pins b1 → p ∉ binding_pins b2) ∧
  (binding_name b1 ∈ flash_views → binding_name b2 ∈ flash_views →
     binding_pins b1 = ["L13"; "K17"; "K18"; "L14"; "M14"] ∧
     binding_pins b2 = ["L13"; "K17"; "K18"; "L14"; "M14"]) ∧
  (∃ quad single,
     rows_named "spiflash_4x" _io = [quad] ∧
     rows_named "spiflash_1x" _io = [single] ∧
     binding_pins quad = ["L13"; "K17"; "K18"; "L14"; "M14"] ∧
     binding_pins single = ["L13"; "K17"; "K18"; "L14"; "M14"]).
Proof.
  intros Hne Hi Hj. split; [|split].
  - by apply (io_pins_disjoint_other_pairs i j).
  - by apply (io_flash_views_same_pins i j).
  - do 2 eexists. repeat split; reflexivity.
Qed.

Lemma io_pins_disjoint_except_flash_witness :
  (∃ b1 b2 : binding,
     0%nat ≠ 9%nat ∧ _io !! 0%nat = Some b1 ∧ _io !! 9%nat = Some b2 ∧
     ¬ (binding_name b1 ∈ flash_views ∧ binding_name b2 ∈ flash_views) ∧
     "M16" ∈ binding_pins b1 ∧ "M16" ∉ binding_pins b2) ∧
  (∃ b1 b2 : binding,
     7%nat ≠ 8%nat ∧ _io !! 7%nat = Some b1 ∧ _io !! 8%nat = Some b2 ∧
     binding_name b1 ∈ flash_views ∧ binding_name b2 ∈ flash_views ∧
     binding_pins b1 = ["L13"; "K17"; "K18"; "L14"; "M14"] ∧
     binding_pins b2 = ["L13"; "K17"; "K18"; "L14"; "M14"]).
Proof.
  split.
  - eexists _, _.
    assert (Hflash : ¬ ("user_led" ∈ flash_views ∧ "ddram" ∈ flash_views)).
    { intros [H _]. unfold flash_views in H.
      apply elem_of_cons in H as [H|H]; [discriminate H|].
      apply elem_of_cons in H as [H|H]; [discriminate H|].
      by apply elem_of_nil in H. }
    assert (Hin : "M16" ∈ ["M16"]) by constructor.
    split; [lia|]. split; [reflexivity|]. split; [reflexivity|].
    split; [exact Hflash|]. split; [exact Hin|].
    exact (proj1 (io_pins_disjoint_except_flash 0 9 _ _ "M16" ltac:(lia) eq_refl eq_refl)
             Hflash Hin).
  - eexists _, _.
    assert (H4 : "spiflash_4x" ∈ flash_views) by (unfold flash_views; repeat constructor).
    assert (H1 : "spiflash_1x" ∈ flash_views) by (unfold flash_views; repeat constructor).
    split; [lia|]. split; [reflexivity|]. split; [reflexivity|].
    split; [exact H4|]. split; [exact H1|].
    exact (proj1 (proj2 (io_pins_disjoint_except_flash 7 8 _ _ "L13" ltac:(lia)
                           eq_refl eq_refl)) H4 H1).
Defined.

(** ** create_programmer *)

Lemma format_proxy family :
  Py.format "bscan_spi_{}.bit" family = "bscan_spi_" +:+ family +:+ ".bit".
Proof. reflexivity. Qed.

Lemma format_unsupported p :
  Py.format "{} programmer is not supported" p = p +:+ " programmer is not supported".
Proof. reflexivity. Qed.

(** The four branches of [create_programmer], by selector. *)
Lemma create_programmer_cases (self : Platform.t) :
  let p := Platform.programmer self in
  (p = "openocd" ∧
   Platform.create_programmer self =
     Ok (OpenOCD "~/nmigen_test/digilent-hs2.cfg"
           ("bscan_spi_" +:+ family_prefix (Platform.device self) +:+ ".bit"))) ∨
  (p = "xc3sprog" ∧ Platform.create_programmer self = Ok (XC3SProg "nexys4")) ∨
  (p = "vivado" ∧
   Platform.create_programmer self = Ok (VivadoProgrammer "n25q128-3.3v-spi-x1_x2_x4")) ∨
  ((p ∉ Platform.supported) ∧
   Platform.create_programmer self =
     Raise (ValueError (p +:+ " programmer is not supported"))).
Proof.
  intros p. unfold Platform.create_programmer. fold p.
  destruct (String.eqb_spec p "openocd") as [->|H1].
  { left. split; [done|]. rewrite first_split, head_split_dash. reflexivity. }
  destruct (String.eqb_spec p "xc3sprog") as [->|H2]; [by right; left|].
  destruct (String.eqb_spec p "vivado") as [->|H3]; [by right; right; left|].
  right; right; right. split; [|by rewrite format_unsupported].
  unfold Platform.supported. intros H.
  repeat (apply elem_of_cons in H as [H|H]; [done|]). by apply elem_of_nil in H.
Qed.

Lemma create_programmer_Ok_supported (self : Platform.t) b :
  Platform.create_programmer self = Ok b →
  Platform.programmer self ∈ Platform.supported.
Proof.
  intros Hb. unfold Platform.supported.
  destruct (create_programmer_cases self) as [[-> _]|[[-> _]|[[-> _]|[_ E]]]].
  - constructor.
  - do 1 constructor; constructor.
  - do 2 constructor; constructor.
  - congruence.
Qed.

(** C3, as the spec states it, fails: there are no four distinct selector
    values for which [create_programmer] returns a back end. *)
Lemma create_programmer_no_four_selectors :
  ¬ ∃ selectors : list string,
      length selectors = 4%nat ∧ NoDup selectors ∧
      ∀ p, p ∈ selectors →
        ∃ b, Platform.create_programmer (Platform.__init__ "vivado" p) = Ok b.
Proof.
  intros (selectors & Hlen & Hnodup & Hall).
  assert (Hsub : selectors ⊆+ Platform.supported).
  { apply NoDup_submseteq; [done|]. intros p [b Hb]%Hall.
    by apply create_programmer_Ok_supported in Hb. }
  apply submseteq_length in Hsub. rewrite Hlen in Hsub. simpl in Hsub. lia.
Qed.

(** C3, amended: for each of the three supported selector values, openocd,
    xc3sprog and vivado, [create_programmer] returns a back end with the
    board's parameters, a different one for each selector; for every other
    value it raises [ValueError]. *)
Theorem create_programmer_three_selectors (toolchain p q : string)
    (b : programmer_backend) :
  let create s := Platform.create_programmer (Platform.__init__ toolchain s) in
  create "openocd" = Ok (OpenOCD "~/nmigen_test/digilent-hs2.cfg" "bscan_spi_xc7a35t.bit") ∧
  create "xc3sprog" = Ok (XC3SProg "nexys4") ∧
  create "vivado" = Ok (VivadoProgrammer "n25q128-3.3v-spi-x1_x2_x4") ∧
  (create p = Ok b → create q = Ok b → p = q) ∧
  (p ∈ Platform.supported ↔ ∃ b', create p = Ok b') ∧
  (p ∉ Platform.supported →
     create p = Raise (ValueError (p +:+ " programmer is not supported"))).
Proof.
  intros create. split; [done|]. split; [done|]. split; [done|]. split; [|split].
  - subst create. simpl. intros Hp Hq.
    destruct (create_programmer_cases (Platform.__init__ toolchain p))
      as [[Ep Hp']|[[Ep Hp']|[[Ep Hp']|[_ Hp']]]];
    destruct (create_programmer_cases (Platform.__init__ toolchain q))
      as [[Eq Hq']|[[Eq Hq']|[[Eq Hq']|[_ Hq']]]];
    simpl in *; congruence.
  - split.
    + unfold Platform.supported. intros H.
      repeat (apply elem_of_cons in H as [->|H]; [by eexists|]).
      by apply elem_of_nil in H.
    + intros [b' Hb']. by apply create_programmer_Ok_supported in Hb'.
  - intros Hp. subst create. simpl.
    destruct (create_programmer_cases (Platform.__init__ toolchain p))
      as [[Ep _]|[[Ep _]|[[Ep _]|[_ E]]]]; simpl in *; [subst p; destruct Hp ..|done].
    + constructor.
    + do 1 constructor; constructor.
    + do 2 constructor; constructor.
Qed.

Lemma create_programmer_three_selectors_witness :
  ("impact" ∉ Platform.supported) ∧
  Platform.create_programmer (Platform.__init__ "vivado" "impact") =
    Raise (ValueError "impact programmer is not supported").
Proof.
  assert (Hno : "impact" ∉ Platform.supported).
  { unfold Platform.supported. intros H.
    repeat (apply elem_of_cons in H as [H|H]; [discriminate H|]).
    by apply elem_of_nil in H. }
  split; [exact Hno|].
  exact (proj2 (proj2 (proj2 (proj2 (proj2
    (create_programmer_three_selectors "vivado" "impact" "impact" (XC3SProg "nexys4"))))))
    Hno).
Defined.

(** C4: [create_programmer] maps openocd to an OpenOCD back end whose flash
    proxy is named after the device family, the part of the device
    identifier before its first dash (bscan_spi_xc7a35t.bit for the board's
    device xc7a35t-csg324-1), xc3sprog to an XC3SProg back end and vivado to
    a VivadoProgrammer with the flash part; every other selector value
    raises [ValueError]. *)
Theorem create_programmer_backends (self : Platform.t) :
  let p := Platform.programmer self in
  let proxy := "bscan_spi_" +:+ family_prefix (Platform.device self) +:+ ".bit" in
  (p = "openocd" →
     Platform.create_programmer self =
       Ok (OpenOCD "~/nmigen_test/digilent-hs2.cfg" proxy)) ∧
  (p = "xc3sprog" → Platform.create_programmer self = Ok (XC3SProg "nexys4")) ∧
  (p = "vivado" →
     Platform.create_programmer self =
       Ok (VivadoProgrammer "n25q128-3.3v-spi-x1_x2_x4")) ∧
  (p ≠ "openocd" → p ≠ "xc3sprog" → p ≠ "vivado" →
     is_ValueError (Platform.create_programmer self)) ∧
  (Platform.device self = "xc7a35t-csg324-1" → proxy = "bscan_spi_xc7a35t.bit").
Proof.
  intros p proxy.
  pose proof (create_programmer_cases self) as Hc. cbv zeta in Hc. fold p proxy in Hc.
  assert (Hsup : p = "openocd" ∨ p = "xc3sprog" ∨ p = "vivado" → p ∈ Platform.supported).
  { unfold Platform.supported. intros [E|[E|E]]; rewrite E; repeat constructor. }
  split; [|split; [|split; [|split]]].
  - intros Hp. destruct Hc as [[E H]|[[E H]|[[E H]|[E H]]]];
      [exact H | congruence | congruence | destruct E; auto].
  - intros Hp. destruct Hc as [[E H]|[[E H]|[[E H]|[E H]]]];
      [congruence | exact H | congruence | destruct E; auto].
  - intros Hp. destruct Hc as [[E H]|[[E H]|[[E H]|[E H]]]];
      [congruence | congruence | exact H | destruct E; auto].
  - intros H1 H2 H3. destruct Hc as [[E H]|[[E H]|[[E H]|[E H]]]];
      [done | done | done | by eexists].
  - intros Hd. subst proxy. by rewrite Hd.
Qed.

Lemma create_programmer_backends_witness :
  Platform.programmer (Platform.__init__ "vivado" "openocd") = "openocd" ∧
  Platform.device (Platform.__init__ "vivado" "openocd") = "xc7a35t-csg324-1" ∧
  Platform.create_programmer (Platform.__init__ "vivado" "openocd") =
    Ok (OpenOCD "~/nmigen_test/digilent-hs2.cfg" "bscan_spi_xc7a35t.bit").
Proof.
  split; [reflexivity|]. split; [reflexivity|].
  exact (proj1 (create_programmer_backends (Platform.__init__ "vivado" "openocd")) eq_refl).
Defined.

(** * Further properties *)

(** ** Splitting and converting *)

(** Cutting a string that has a separator in the middle gives the pieces of
    the left part followed by those of the right part. *)
Lemma split_app_sep sep a b :
  Py.split sep (a +:+ String sep b) = Py.split sep a ++ Py.split sep b.
Proof.
  induction a as [|c a IH]; simpl.
  - by rewrite Ascii.eqb_refl.
  - rewrite IH. destruct (Ascii.eqb c sep); [done|].
    pose proof (split_nonempty sep a). by destruct (Py.split sep a).
Qed.

Lemma split_uint d :
  Py.split "." (NilEmpty.string_of_uint d) = [NilEmpty.string_of_uint d].
Proof. induction d; simpl; by rewrite ?IHd. Qed.

(** A decimal numeral has no dot: it is one component. *)
Lemma split_str n : Py.split "." (Py.str n) = [Py.str n].
Proof.
  unfold Py.str, NilZero.string_of_uint.
  destruct (Nat.to_uint n); [done | apply split_uint ..].
Qed.

Lemma int_digits_uint d acc :
  Py.int_digits (Z.of_nat acc) (NilEmpty.string_of_uint d)
    = Some (Z.of_nat (Nat.of_uint_acc d acc), EmptyString).
Proof.
  revert acc. induction d; intros acc; simpl; [done|..];
    rewrite <- IHd; f_equal; rewrite Nat.tail_mul_spec; lia.
Qed.

Lemma count_digits_uint d :
  Py.count_digits (NilEmpty.string_of_uint d)
    = Z.of_nat (String.length (NilEmpty.string_of_uint d)).
Proof. induction d; simpl String.length; simpl Py.count_digits; lia. Qed.

Lemma int_uint d :
  d ≠ Decimal.Nil →
  (String.length (NilEmpty.string_of_uint d) ≤ 4300)%nat →
  Py.int (NilEmpty.string_of_uint d) = Ok (Z.of_nat (Nat.of_uint d)).
Proof.
  intros Hd Hlen. apply Nat2Z.inj_le in Hlen. rewrite <- count_digits_uint in Hlen.
  assert (Hcap : (Py.int_max_str_digits <? Py.count_digits (NilEmpty.string_of_uint d))
                 = false) by (apply Z.ltb_ge; exact Hlen).
  clear Hlen. unfold Nat.of_uint.
  destruct d; [done|..]; unfold Py.int; rewrite Hcap; simpl;
    rewrite (int_digits_uint d _); reflexivity.
Qed.

Lemma to_uint_nonnil n : Nat.to_uint n ≠ Decimal.Nil.
Proof.
  intros H. pose proof (DecimalNat.Unsigned.of_to n) as Hn. rewrite H in Hn.
  simpl in Hn. subst n. discriminate H.
Qed.

Lemma str_to_uint n : Py.str n = NilEmpty.string_of_uint (Nat.to_uint n).
Proof.
  unfold Py.str, NilZero.string_of_uint.
  pose proof (to_uint_nonnil n). by destruct (Nat.to_uint n).
Qed.

(** [int(str(n)) == n], for a numeral within the limit on digits. *)
Lemma int_str n :
  (String.length (Py.str n) ≤ 4300)%nat → Py.int (Py.str n) = Ok (Z.of_nat n).
Proof.
  rewrite str_to_uint. intros Hlen.
  rewrite <- (DecimalNat.Unsigned.of_to n) at 2.
  apply int_uint; [apply to_uint_nonnil | done].
Qed.

Lemma str_inj n m : Py.str n = Py.str m → n = m.
Proof.
  rewrite !str_to_uint. intros H. apply DecimalNat.Unsigned.to_uint_inj.
  apply (f_equal NilEmpty.uint_of_string) in H.
  rewrite !NilEmpty.usu in H. by injection H.
Qed.

Lemma constant_name_inj ip_type i j :
  constant_name ip_type i = constant_name ip_type j → i = j.
Proof.
  unfold constant_name. rewrite !upper_app, !upper_str.
  intros H%String.app_inj%str_inj. lia.
Qed.

(** ** What the constants of a run are *)

Section Emitted.
Context {PyObj : Type}.
Implicit Types tr : list (call PyObj).

Lemma omap_imap_Some {A B} (f : call PyObj → option B) (g : nat → A → call PyObj)
    (h : nat → A → B) (l : list A) :
  (∀ i x, f (g i x) = Some (h i x)) → omap f (imap g l) = imap h l.
Proof.
  revert g h. induction l as [|x l IH]; intros g h Hf; simpl; [done|].
  rewrite Hf. f_equal. apply IH. intros i y. apply Hf.
Qed.

Lemma omap_imap_None {A B} (f : call PyObj → option B) (g : nat → A → call PyObj)
    (l : list A) :
  (∀ i x, f (g i x) = None) → omap f (imap g l) = [].
Proof.
  revert g. induction l as [|x l IH]; intros g Hf; simpl; [done|].
  rewrite Hf. apply IH. intros i y. apply Hf.
Qed.

Lemma constants_constant_calls ip_type (ip : list Z) :
  NetSoC.constants (constant_calls (PyObj := PyObj) ip_type ip)
    = imap (λ i e, (constant_name ip_type i, e)) ip.
Proof. unfold NetSoC.constants, constant_calls. by apply omap_imap_Some. Qed.

Lemma constant_names_NoDup ip_type (ip : list Z) :
  NoDup (List.map fst (NetSoC.constants (constant_calls (PyObj := PyObj) ip_type ip))).
Proof.
  rewrite constants_constant_calls. apply NoDup_alt. intros i j name.
  change (List.map fst ?l) with (fst <$> l).
  rewrite !list_lookup_fmap, !list_lookup_imap.
  destruct (ip !! i), (ip !! j); simpl; try done.
  intros [= <-] [= H]. symmetry. by apply constant_name_inj in H.
Qed.

Lemma constant_values ip_type (ip : list Z) :
  List.map snd (NetSoC.constants (constant_calls (PyObj := PyObj) ip_type ip)) = ip.
Proof.
  rewrite constants_constant_calls.
  change (List.map snd ?l) with (snd <$> l). rewrite fmap_imap.
  change (λ n : nat, snd ∘ (λ e : Z, (constant_name ip_type n, e)))
    with (const (id : Z → Z) : nat → Z → Z).
  by rewrite imap_const, list_fmap_id.
Qed.

(** Every run either converts all components and emits both addresses, or
    raises [ValueError] before anything is emitted. *)
Lemma configure_iprange_dichotomy s tr :
  (∃ comps,
     Forall2 (λ x v, Py.int x = Ok v) (Py.split "." s) comps ∧
     NetSoC.configure_iprange s tr =
       (Ok tt, tr ++ constant_calls "LOCALIP" (Py.but_last (NetSoC.pad comps) ++ [50])
                  ++ constant_calls "REMOTEIP" (Py.but_last (NetSoC.pad comps) ++ [100])))
  ∨ (∃ msg, NetSoC.configure_iprange s tr = (Raise (ValueError msg), tr)).
Proof.
  destruct (Py.comprehension Py.int (Py.split "." s)) as [comps|e] eqn:E.
  - left. exists comps. apply comprehension_Ok in E. split; [done|].
    by apply configure_iprange_run.
  - right. assert (∃ x, x ∈ Py.split "." s ∧ ∀ v, Py.int x ≠ Ok v) as (x & Hin & Hx).
    { clear tr. revert e E. induction (Py.split "." s) as [|y l IH]; intros e; simpl; [done|].
      unfold mbind, result_bind. destruct (Py.int y) as [v|e'] eqn:Ey.
      - destruct (Py.comprehension Py.int l) as [ys|e''] eqn:El; [done|].
        intros _. destruct (IH e'' eq_refl) as (x & Hin & Hx).
        exists x. split; [by constructor|done].
      - intros _. exists y. split; [constructor|]. intros v. by rewrite Ey. }
    by apply (configure_iprange_raise s x).
Qed.

End Emitted.

(** ** Further properties of _configure_ip and configure_iprange *)

(** [_configure_ip] never raises: it emits one constant per element of the
    address, with the elements as values in order and with pairwise
    distinct names, whatever the prefix and the address (none for the
    empty address). *)
Theorem _configure_ip_one_constant_per_element (PyObj : Type) (ip_type : string)
    (ip : list Z) (tr : list (call PyObj)) :
  ∃ emitted,
    NetSoC._configure_ip ip_type ip tr = (Ok tt, tr ++ emitted) ∧
    length emitted = length ip ∧
    List.map snd (NetSoC.constants emitted) = ip ∧
    NoDup (List.map fst (NetSoC.constants emitted)).
Proof.
  exists (constant_calls ip_type ip). split; [apply _configure_ip_run|].
  split; [apply length_constant_calls|].
  split; [apply constant_values | apply constant_names_NoDup].
Qed.

Lemma local_remote_names_disjoint i j :
  constant_name "LOCALIP" i ≠ constant_name "REMOTEIP" j.
Proof. unfold constant_name. simpl. discriminate. Qed.

Lemma constants_app {PyObj} (tr1 tr2 : list (call PyObj)) :
  NetSoC.constants (tr1 ++ tr2) = NetSoC.constants tr1 ++ NetSoC.constants tr2.
Proof. apply omap_app. Qed.

Lemma constant_name_elem {PyObj} ip_type (ip : list Z) name :
  name ∈ List.map fst (NetSoC.constants (constant_calls (PyObj := PyObj) ip_type ip)) →
  ∃ i, name = constant_name ip_type i.
Proof.
  rewrite constants_constant_calls. change (List.map fst ?l) with (fst <$> l).
  intros ([n v] & -> & (i & e & [= -> ->] & _)%elem_of_lookup_imap)%list_elem_of_fmap.
  by exists i.
Qed.

(** No constant name is emitted twice by an accepted call of
    [configure_iprange]. *)
Theorem configure_iprange_names_distinct (PyObj : Type) (s : string)
    (tr tr' : list (call PyObj)) :
  NetSoC.configure_iprange s tr = (Ok tt, tr') →
  ∃ emitted, tr' = tr ++ emitted ∧ NoDup (List.map fst (NetSoC.constants emitted)).
Proof.
  intros Hrun. destruct (configure_iprange_accepts _ _ _ Hrun) as [comps Hcomps].
  rewrite (configure_iprange_run s comps tr Hcomps) in Hrun. injection Hrun as <-.
  eexists. split; [done|].
  rewrite constants_app, map_app. apply NoDup_app.
  split; [apply constant_names_NoDup|]. split; [|apply constant_names_NoDup].
  intros name [i ->]%constant_name_elem [j Hj]%constant_name_elem.
  by apply local_remote_names_disjoint in Hj.
Qed.

Lemma configure_iprange_names_distinct_witness :
  ∃ tr' : list (call unit),
    NetSoC.configure_iprange "172.16.0.1.9" [] = (Ok tt, tr') ∧
    ∃ emitted, tr' = [] ++ emitted ∧ NoDup (List.map fst (NetSoC.constants emitted)).
Proof.
  eexists. split; [vm_compute; reflexivity|].
  exact (configure_iprange_names_distinct unit "172.16.0.1.9" [] _ eq_refl).
Defined.

Lemma but_last_snoc {A} (l : list A) x : Py.but_last (l ++ [x]) = l.
Proof.
  unfold Py.but_last. rewrite length_app. simpl.
  replace (length l + 1 - 1)%nat with (length l) by lia. apply take_app_length.
Qed.

(** An accepted call emits two addresses of the same length, four or the
    number of components if that is larger; the local address ends in 50,
    the remote one in 100, and they agree everywhere else. *)
Theorem configure_iprange_address_shape (PyObj : Type) (s : string)
    (comps : list Z) (tr : list (call PyObj)) :
  Forall2 (λ x v, Py.int x = Ok v) (Py.split "." s) comps →
  ∃ local remote,
    NetSoC.configure_iprange s tr =
      (Ok tt, tr ++ constant_calls "LOCALIP" local ++ constant_calls "REMOTEIP" remote) ∧
    length local = (4 `max` length comps)%nat ∧
    length remote = (4 `max` length comps)%nat ∧
    last local = Some 50 ∧ last remote = Some 100 ∧
    Py.but_last local = Py.but_last remote.
Proof.
  intros Hcomps. do 2 eexists. split; [by apply configure_iprange_run|].
  rewrite !length_app, !length_but_last, !length_pad, !last_snoc, !but_last_snoc.
  simpl. repeat split; lia.
Qed.

Lemma configure_iprange_address_shape_witness :
  let comps : list Z := [10; 20] in
  Forall2 (λ x v, Py.int x = Ok v) (Py.split "." "10.20") comps ∧
  ∃ local remote,
    NetSoC.configure_iprange (PyObj := unit) "10.20" [] =
      (Ok tt, [] ++ constant_calls "LOCALIP" local ++ constant_calls "REMOTEIP" remote) ∧
    length local = (4 `max` length comps)%nat ∧
    length remote = (4 `max` length comps)%nat ∧
    last local = Some 50 ∧ last remote = Some 100 ∧
    Py.but_last local = Py.but_last remote.
Proof.
  intros comps.
  assert (H : Forall2 (λ x v, Py.int x = Ok v) (Py.split "." "10.20") comps)
    by (simpl; repeat constructor).
  split; [exact H|].
  exact (configure_iprange_address_shape unit "10.20" comps [] H).
Defined.

(** With four components or more the last one is never read: two ranges
    that differ only there configure the same constants. *)
Theorem configure_iprange_last_component_ignored (PyObj : Type) (s1 s2 : string)
    (comps1 comps2 : list Z) (tr : list (call PyObj)) :
  Forall2 (λ x v, Py.int x = Ok v) (Py.split "." s1) comps1 →
  Forall2 (λ x v, Py.int x = Ok v) (Py.split "." s2) comps2 →
  (4 ≤ length comps1)%nat → (4 ≤ length comps2)%nat →
  Py.but_last comps1 = Py.but_last comps2 →
  NetSoC.configure_iprange s1 tr = NetSoC.configure_iprange s2 tr.
Proof.
  intros H1 H2 Hl1 Hl2 Heq.
  rewrite (configure_iprange_run s1 comps1 tr H1), (configure_iprange_run s2 comps2 tr H2).
  by rewrite !pad_long, Heq by done.
Qed.

Lemma configure_iprange_last_component_ignored_witness :
  let comps1 : list Z := [192; 168; 1; 0] in
  let comps2 : list Z := [192; 168; 1; 255] in
  Forall2 (λ x v, Py.int x = Ok v) (Py.split "." "192.168.1.0") comps1 ∧
  Forall2 (λ x v, Py.int x = Ok v) (Py.split "." "192.168.1.255") comps2 ∧
  (4 ≤ length comps1)%nat ∧ (4 ≤ length comps2)%nat ∧
  Py.but_last comps1 = Py.but_last comps2 ∧
  NetSoC.configure_iprange (PyObj := unit) "192.168.1.0" []
    = NetSoC.configure_iprange "192.168.1.255" [].
Proof.
  intros comps1 comps2.
  assert (H1 : Forall2 (λ x v, Py.int x = Ok v) (Py.split "." "192.168.1.0") comps1)
    by (simpl; repeat constructor).
  assert (H2 : Forall2 (λ x v, Py.int x = Ok v) (Py.split "." "192.168.1.255") comps2)
    by (simpl; repeat constructor).
  assert (Hl1 : (4 ≤ length comps1)%nat) by (simpl; lia).
  assert (Hl2 : (4 ≤ length comps2)%nat) by (simpl; lia).
  assert (Heq : Py.but_last comps1 = Py.but_last comps2) by reflexivity.
  repeat (split; [assumption|]).
  exact (configure_iprange_last_component_ignored unit _ _ comps1 comps2 [] H1 H2 Hl1 Hl2 Heq).
Defined.

(** A range of fewer than four components configures what the same range
    with one more zero component configures. *)
Theorem configure_iprange_zero_padding (PyObj : Type) (s : string)
    (comps : list Z) (tr : list (call PyObj)) :
  Forall2 (λ x v, Py.int x = Ok v) (Py.split "." s) comps →
  (length comps < 4)%nat →
  NetSoC.configure_iprange (s +:+ ".0") tr = NetSoC.configure_iprange s tr.
Proof.
  intros Hcomps Hlen.
  assert (Hmore : Forall2 (λ x v, Py.int x = Ok v)
                    (Py.split "." (s +:+ ".0")) (comps ++ [0])).
  { rewrite split_app_sep. apply Forall2_app; [done|]. by repeat constructor. }
  rewrite (configure_iprange_run _ _ tr Hcomps), (configure_iprange_run _ _ tr Hmore).
  assert (NetSoC.pad (comps ++ [0]) = NetSoC.pad comps) as ->; [|done].
  rewrite (proj1 (pad_spec comps)), (proj1 (pad_spec (comps ++ [0]))).
  rewrite length_app, <- app_assoc. simpl. f_equal.
  replace (4 - length comps)%nat with (S (4 - (length comps + 1))) by lia.
  done.
Qed.

Lemma configure_iprange_zero_padding_witness :
  let comps : list Z := [10] in
  Forall2 (λ x v, Py.int x = Ok v) (Py.split "." "10") comps ∧
  (length comps < 4)%nat ∧
  NetSoC.configure_iprange (PyObj := unit) ("10" +:+ ".0") []
    = NetSoC.configure_iprange "10" [].
Proof.
  intros comps.
  assert (H : Forall2 (λ x v, Py.int x = Ok v) (Py.split "." "10") comps)
    by (simpl; repeat constructor).
  assert (Hl : (length comps < 4)%nat) by (simpl; lia).
  split; [exact H|]. split; [exact Hl|].
  exact (configure_iprange_zero_padding unit "10" comps [] H Hl).
Defined.

Lemma int_empty v : Py.int "" ≠ Ok v.
Proof. discriminate. Qed.

(** An empty component is rejected: the empty string, a range that starts
    or ends with a dot and a range with two dots in a row all raise
    [ValueError], and nothing is emitted. *)
Theorem configure_iprange_empty_component (PyObj : Type) (a b : string)
    (tr : list (call PyObj)) :
  (∃ msg, NetSoC.configure_iprange "" tr = (Raise (ValueError msg), tr)) ∧
  (∃ msg, NetSoC.configure_iprange (String "." b) tr = (Raise (ValueError msg), tr)) ∧
  (∃ msg, NetSoC.configure_iprange (a +:+ ".") tr = (Raise (ValueError msg), tr)) ∧
  (∃ msg, NetSoC.configure_iprange (a +:+ String "." (String "." b)) tr
            = (Raise (ValueError msg), tr)).
Proof.
  repeat split; apply (configure_iprange_raise _ ""); try apply int_empty.
  - constructor.
  - simpl. constructor.
  - rewrite split_app_sep. apply elem_of_app. right. constructor.
  - rewrite split_app_sep. apply elem_of_app. right. simpl. constructor.
Qed.

Lemma split_dotted n ns :
  Forall (λ k, (String.length (Py.str k) ≤ 4300)%nat) (n :: ns) →
  Forall2 (λ x v, Py.int x = Ok v)
    (Py.split "." (dotted (Py.str n) (List.map Py.str ns)))
    (List.map Z.of_nat (n :: ns)).
Proof.
  revert n. induction ns as [|m ns IH]; intros n Hlen; simpl;
    apply Forall_cons in Hlen as [Hn Hns].
  - rewrite split_str. repeat constructor. by apply int_str.
  - rewrite split_app_sep, split_str. constructor; [by apply int_str|]. by apply IH.
Qed.

(** Decimal octets are read back as written.  When no numeral has more
    digits than the interpreter's limit of 4300, the range made of the
    decimal numerals of [n :: ns] joined by dots is accepted and its
    components are those numbers; for a dotted quad [a.b.c.d] the constants
    are a, b, c, 50 and a, b, c, 100. *)
Theorem configure_iprange_decimal_octets (PyObj : Type) (n : nat) (ns : list nat)
    (a b c d : nat) (tr : list (call PyObj)) :
  Forall (λ k, (String.length (Py.str k) ≤ 4300)%nat) (n :: ns) →
  Forall (λ k, (String.length (Py.str k) ≤ 4300)%nat) [a; b; c; d] →
  let comps := List.map Z.of_nat (n :: ns) in
  NetSoC.configure_iprange (dotted (Py.str n) (List.map Py.str ns)) tr =
    (Ok tt, tr ++ constant_calls "LOCALIP" (Py.but_last (NetSoC.pad comps) ++ [50])
               ++ constant_calls "REMOTEIP" (Py.but_last (NetSoC.pad comps) ++ [100])) ∧
  NetSoC.constants
    (NetSoC.configure_iprange (PyObj := PyObj)
       (dotted (Py.str a) [Py.str b; Py.str c; Py.str d]) []).2 =
    [("LOCALIP1", Z.of_nat a); ("LOCALIP2", Z.of_nat b);
     ("LOCALIP3", Z.of_nat c); ("LOCALIP4", 50);
     ("REMOTEIP1", Z.of_nat a); ("REMOTEIP2", Z.of_nat b);
     ("REMOTEIP3", Z.of_nat c); ("REMOTEIP4", 100)].
Proof.
  intros Hns Hquad comps. split.
  - by apply configure_iprange_run, split_dotted.
  - by rewrite (configure_iprange_run _ _ _ (split_dotted a [b; c; d] Hquad)).
Qed.

Lemma configure_iprange_decimal_octets_witness :
  let within := λ k, (String.length (Py.str k) ≤ 4300)%nat in
  Forall within [172; 16; 254]%nat ∧ Forall within [192; 168; 1; 7]%nat ∧
  NetSoC.configure_iprange (PyObj := unit) "172.16.254" [] =
    (Ok tt, [] ++ constant_calls "LOCALIP" [172; 16; 254; 50]
               ++ constant_calls "REMOTEIP" [172; 16; 254; 100]) ∧
  NetSoC.constants (NetSoC.configure_iprange (PyObj := unit) "192.168.1.7" []).2 =
    [("LOCALIP1", 192); ("LOCALIP2", 168); ("LOCALIP3", 1); ("LOCALIP4", 50);
     ("REMOTEIP1", 192); ("REMOTEIP2", 168); ("REMOTEIP3", 1); ("REMOTEIP4", 100)].
Proof.
  intros within.
  assert (H1 : Forall within [172; 16; 254]%nat)
    by (repeat constructor; unfold within; simpl; lia).
  assert (H2 : Forall within [192; 168; 1; 7]%nat)
    by (repeat constructor; unfold within; simpl; lia).
  split; [exact H1|]. split; [exact H2|].
  exact (configure_iprange_decimal_octets unit 172%nat [16; 254]%nat
           192%nat 168%nat 1%nat 7%nat [] H1 H2).
Defined.

(** [configure_iprange] is all or nothing: it returns after emitting at
    least eight constants, or it raises [ValueError] with the trace as it
    found it; it raises nothing else. *)
Theorem configure_iprange_all_or_nothing (PyObj : Type) (s : string)
    (tr : list (call PyObj)) :
  (∃ emitted,
     NetSoC.configure_iprange s tr = (Ok tt, tr ++ emitted) ∧
     (8 ≤ length emitted)%nat ∧
     Forall (λ c, ∃ name value, c = AddConstant name value) emitted)
  ∨ (∃ msg, NetSoC.configure_iprange s tr = (Raise (ValueError msg), tr)).
Proof.
  destruct (configure_iprange_dichotomy s tr) as [(comps & _ & E)|E]; [left|by right].
  eexists. split; [exact E|]. split.
  - rewrite length_app, !length_constant_calls, !length_app, length_but_last, length_pad.
    simpl. lia.
  - apply Forall_forall. intros c [Hc|Hc]%elem_of_app;
      apply elem_of_lookup_imap in Hc as (i & e & -> & _); by do 2 eexists.
Qed.

(** [configure_iprange] touches nothing but the constants: the CSR
    registrations, memory regions, bus slaves, interrupts and base-class
    initialisations recorded before the call are the ones recorded after
    it, whether it returns or raises. *)
Theorem configure_iprange_keeps_registrations (PyObj : Type) (s : string)
    (tr : list (call PyObj)) :
  let tr' := (NetSoC.configure_iprange s tr).2 in
  NetSoC.csr_registrations tr' = NetSoC.csr_registrations tr ∧
  NetSoC.memory_regions tr' = NetSoC.memory_regions tr ∧
  NetSoC.wb_slaves tr' = NetSoC.wb_slaves tr ∧
  NetSoC.interrupts tr' = NetSoC.interrupts tr ∧
  NetSoC.base_inits tr' = NetSoC.base_inits tr ∧
  NetSoC.integrated_rom_size tr' = NetSoC.integrated_rom_size tr.
Proof.
  intros tr'. subst tr'.
  destruct (configure_iprange_dichotomy s tr) as [(comps & _ & ->)|[msg ->]]; [|done].
  simpl. unfold NetSoC.integrated_rom_size, NetSoC.csr_registrations,
    NetSoC.memory_regions, NetSoC.wb_slaves, NetSoC.interrupts, NetSoC.base_inits.
  unfold constant_calls. rewrite !omap_app, !omap_imap_None by done.
  by rewrite !app_nil_r.
Qed.

(** ** Further properties of create_programmer *)

Lemma family_prefix_dash family rest :
  has_char "-" family = false →
  family_prefix (family +:+ String "-" rest) = family.
Proof.
  induction family as [|c s IH]; simpl; [done|].
  intros [Hc Hs]%orb_false_iff. rewrite Hc. f_equal. by apply IH.
Qed.

Lemma family_prefix_no_dash device :
  has_char "-" device = false → family_prefix device = device.
Proof.
  induction device as [|c s IH]; simpl; [done|].
  intros [Hc Hs]%orb_false_iff. rewrite Hc. f_equal. by apply IH.
Qed.

Lemma create_programmer_openocd (self : Platform.t) :
  Platform.programmer self = "openocd" →
  Platform.create_programmer self =
    Ok (OpenOCD "~/nmigen_test/digilent-hs2.cfg"
          ("bscan_spi_" +:+ family_prefix (Platform.device self) +:+ ".bit")).
Proof.
  intros Hp. unfold Platform.create_programmer. rewrite Hp. simpl.
  by rewrite first_split, head_split_dash.
Qed.

(** With the openocd selector, only the part of the device identifier
    before its first dash reaches the proxy name: whatever follows the
    dash is ignored. *)
Theorem create_programmer_proxy_ignores_suffix (self : Platform.t)
    (family rest : string) :
  Platform.programmer self = "openocd" →
  Platform.device self = family +:+ String "-" rest →
  has_char "-" family = false →
  Platform.create_programmer self =
    Ok (OpenOCD "~/nmigen_test/digilent-hs2.cfg" ("bscan_spi_" +:+ family +:+ ".bit")).
Proof.
  intros Hp Hd Hf. rewrite (create_programmer_openocd self Hp), Hd.
  by rewrite family_prefix_dash.
Qed.

Lemma create_programmer_proxy_ignores_suffix_witness :
  let self := Platform.__init__ "vivado" "openocd" in
  Platform.programmer self = "openocd" ∧
  Platform.device self = "xc7a35t" +:+ String "-" "csg324-1" ∧
  has_char "-" "xc7a35t" = false ∧
  Platform.create_programmer self =
    Ok (OpenOCD "~/nmigen_test/digilent-hs2.cfg" ("bscan_spi_" +:+ "xc7a35t" +:+ ".bit")).
Proof.
  intros self. split; [reflexivity|]. split; [reflexivity|]. split; [reflexivity|].
  exact (create_programmer_proxy_ignores_suffix self "xc7a35t" "csg324-1"
           eq_refl eq_refl eq_refl).
Defined.

(** A device identifier without a dash goes into the proxy name whole,
    the empty identifier included: [split] always returns a first piece,
    so the lookup of piece 0 cannot fail. *)
Theorem create_programmer_device_without_dash (self : Platform.t) :
  Platform.programmer self = "openocd" →
  has_char "-" (Platform.device self) = false →
  Platform.create_programmer self =
    Ok (OpenOCD "~/nmigen_test/digilent-hs2.cfg"
          ("bscan_spi_" +:+ Platform.device self +:+ ".bit")).
Proof.
  intros Hp Hd. rewrite (create_programmer_openocd self Hp).
  by rewrite family_prefix_no_dash.
Qed.

Lemma create_programmer_device_without_dash_witness :
  let self := {| Platform.device := ""; Platform.io := [];
                 Platform.toolchain := "vivado";
                 Platform.bitstream_commands := [];
                 Platform.additional_commands := [];
                 Platform.programmer := "openocd";
                 Platform.platform_commands := [] |} in
  Platform.programmer self = "openocd" ∧
  has_char "-" (Platform.device self) = false ∧
  Platform.create_programmer self =
    Ok (OpenOCD "~/nmigen_test/digilent-hs2.cfg" "bscan_spi_.bit").
Proof.
  intros self. split; [reflexivity|]. split; [reflexivity|].
  exact (create_programmer_device_without_dash self eq_refl eq_refl).
Defined.

(** [create_programmer] returns a back end or raises [ValueError]; it
    raises nothing else, whatever the device identifier and the selector. *)
Theorem create_programmer_only_ValueError (self : Platform.t) :
  (∃ b, Platform.create_programmer self = Ok b) ∨
  Platform.create_programmer self =
    Raise (ValueError (Platform.programmer self +:+ " programmer is not supported")).
Proof.
  destruct (create_programmer_cases self) as [[_ H]|[[_ H]|[[_ H]|[_ H]]]];
    [left; by eexists ..|by right].
Qed.

(** ** Further invariants of the IO table *)

Lemma distinct_NoDup l : distinct l = true → NoDup l.
Proof.
  induction l as [|x l IH]; simpl; [constructor|].
  intros [Hx Hl]%andb_true_iff. constructor; [|by apply IH].
  intros Hin. apply negb_true_iff, not_true_iff_false in Hx. apply Hx.
  apply existsb_exists. exists x. split; [by apply list_elem_of_In|].
  apply String.eqb_refl.
Qed.

(** No two rows of the table have the same signal name and index. *)
Theorem io_rows_keyed_uniquely :
  NoDup (List.map (λ b, (binding_name b, binding_index b)) _io).
Proof. apply (bool_decide_unpack _). by vm_compute. Qed.

(** Within a row no pin location is bound twice, and no two sub-signals
    have the same name. *)
Theorem io_rows_well_formed :
  Forall (λ b, NoDup (binding_pins b) ∧ NoDup (subsignal_names b)) _io.
Proof.
  assert (H : forallb (λ b, distinct (binding_pins b) && distinct (subsignal_names b)) _io
              = true) by (by vm_compute).
  apply Forall_forall. intros b Hb%list_elem_of_In.
  eapply forallb_forall in H; [|exact Hb].
  apply andb_true_iff in H as [H1 H2]. split; by apply distinct_NoDup.
Qed.

(** Every pin of the table has an IO standard, its own or the one of its
    row. *)
Theorem io_pins_have_iostandard :
  Forall (λ b, pins_have_iostandard b = true) _io.
Proof. unfold _io. repeat constructor. Qed.

(** The two views of the SPI flash are the same wiring: one row each, the
    same chip select, and the four data lines of the quad view are, in
    order, mosi, miso, wp and hold of the single-bit view. *)
Theorem io_flash_views_agree :
  ∃ quad single,
    rows_named "spiflash_4x" _io = [quad] ∧
    rows_named "spiflash_1x" _io = [single] ∧
    subsignal_pins "cs_n" quad = subsignal_pins "cs_n" single ∧
    subsignal_pins "dq" quad =
      subsignal_pins "mosi" single ++ subsignal_pins "miso" single
        ++ subsignal_pins "wp" single ++ subsignal_pins "hold" single ∧
    length (subsignal_pins "dq" quad) = 4%nat ∧
    binding_pins quad = binding_pins single.
Proof. do 2 eexists. repeat split; reflexivity. Qed.

(** The default clock of the platform is in the table: exactly one row
    has the name [default_clk_name], with index 0 and a single pin. *)
Theorem io_default_clock_bound :
  ∃ clk,
    rows_named Platform.default_clk_name _io = [clk] ∧
    binding_index clk = 0 ∧
    length (binding_pins clk) = 1%nat.
Proof. eexists. repeat split; reflexivity. Qed.

(** The DDR3 bundle is one row with two byte lanes: 16 data pins, and one
    data mask and one differential strobe pair for every 8 of them; 15
    address and 3 bank pins; one differential clock pair. *)
Theorem io_ddram_byte_lanes :
  ∃ ddram,
    rows_named "ddram" _io = [ddram] ∧
    let n name := Z.of_nat (length (subsignal_pins name ddram)) in
    n "dq" = 16 ∧
    n "dq" = 8 * n "dm" ∧ n "dq" = 8 * n "dqs_p" ∧ n "dq" = 8 * n "dqs_n" ∧
    n "a" = 15 ∧ n "ba" = 3 ∧
    n "clk_p" = 1 ∧ n "clk_n" = 1.
Proof. eexists. split; [reflexivity|]. by vm_compute. Qed.

(** ** The flash constants *)

(** The flash geometry is consistent: 64 MiB in whole sectors of 256 KiB,
    a sector in whole pages of 512 bytes; the gateware region is the
    bitstream size rounded up to the next multiple of 64 KiB and lies
    within the flash. *)
Theorem spiflash_geometry :
  Platform.spiflash_total_size = 64 * 1024 * 1024 ∧
  Platform.spiflash_total_size mod Platform.spiflash_sector_size = 0 ∧
  Platform.spiflash_sector_size mod Platform.spiflash_page_size = 0 ∧
  Platform.bitstream_bits mod 8 = 0 ∧
  Platform.bitstream_bits / 8 = 0x21728c ∧
  Platform.gateware_size = (Platform.bitstream_bits / 8 + 0xffff) / 0x10000 * 0x10000 ∧
  Platform.bitstream_bits / 8 ≤ Platform.gateware_size < Platform.spiflash_total_size.
Proof. by vm_compute. Qed.
